(** * heliopy.data.mms: file naming, time and version filters, downloader state

    A shallow embedding of the file-name codec, the time-range filter, the
    version filter, the interval resolver and the attribute protocol of
    [MMSDownloader] from [heliopy/data/mms.py], with the properties the
    specification states about them.

    Python values are embedded as follows: [str] is [string], a list is a
    [list], a tuple of strings is a [list string], [None] in an optional
    argument is [None], an object's attribute dictionary is a
    [gmap string pyval], and a call that may raise returns a [result]. *)

From Stdlib Require Import ZArith Ascii String List Lia Bool Sorted.
From stdpp Require Import gmap strings list.

Local Open Scope string_scope.
Local Open Scope Z_scope.

(** ** Exceptions *)

(** The exception classes the embedded functions can raise. *)
Inductive exn : Type :=
  | ValueError
  | IndexError
  | NameError
  | UnboundLocalError
  | AttributeError
  | TypeError
  | RecursionError.

Inductive result (A : Type) : Type :=
  | Ok (a : A)
  | Raise (e : exn).

Arguments Ok {A} a.
Arguments Raise {A} e.

Definition rbind {A B} (r : result A) (k : A -> result B) : result B :=
  match r with
  | Ok a => k a
  | Raise e => Raise e
  end.

Notation "'do' x <- r ; k" := (rbind r (fun x => k))
  (at level 10, x name, r at level 100, k at level 200).

(** A list comprehension whose element expression may raise: elements are
    evaluated left to right and the first exception aborts the whole list. *)
Fixpoint map_result {A B} (f : A -> result B) (l : list A) : result (list B) :=
  match l with
  | [] => Ok []
  | x :: l' => do y <- f x; do ys <- map_result f l'; Ok (y :: ys)
  end.

(** ** Python strings and sequences *)

Module Py.

(** [len(s)] *)
Definition len (s : string) : Z := Z.of_nat (String.length s).

(** Normalisation of one slice bound against a sequence of length [n]:
    negative bounds count from the end, and all bounds are clamped. *)
Definition clamp (n i : Z) : Z :=
  if i <? 0 then Z.max 0 (i + n) else Z.min i n.

(** [s[start:stop]] on a string. *)
Definition slice (start stop : Z) (s : string) : string :=
  let a := clamp (len s) start in
  let b := clamp (len s) stop in
  if a <? b then String.substring (Z.to_nat a) (Z.to_nat (b - a)) s else "".

(** [l[start:stop]] on a list or tuple. *)
Definition lslice {A} (start stop : Z) (l : list A) : list A :=
  let n := Z.of_nat (length l) in
  let a := clamp n start in
  let b := clamp n stop in
  if a <? b then take (Z.to_nat (b - a)) (drop (Z.to_nat a) l) else [].

(** [l[i]]: a negative index counts from the end; out of range raises. *)
Definition index {A} (l : list A) (i : Z) : result A :=
  let n := Z.of_nat (length l) in
  let j := if i <? 0 then i + n else i in
  if (0 <=? j) && (j <? n) then
    match l !! Z.to_nat j with
    | Some x => Ok x
    | None => Raise IndexError
    end
  else Raise IndexError.

(** [l.insert(i, x)]: the position is normalised like a slice bound. *)
Definition insert {A} (i : Z) (x : A) (l : list A) : list A :=
  let k := Z.to_nat (clamp (Z.of_nat (length l)) i) in
  (take k l ++ x :: drop k l)%list.

(** [l[-1] = x] on a non-empty list; on an empty list Python raises. *)
Definition set_last {A} (x : A) (l : list A) : result (list A) :=
  match l with
  | [] => Raise IndexError
  | _ => Ok (removelast l ++ [x])%list
  end.

(** [s.split(sep)] for a one-character separator: never the empty list. *)
Fixpoint split (sep : ascii) (s : string) : list string :=
  match s with
  | EmptyString => [EmptyString]
  | String c s' =>
      if Ascii.eqb c sep then EmptyString :: split sep s'
      else match split sep s' with
           | [] => [String c EmptyString]
           | w :: ws => String c w :: ws
           end
  end.

(** [sep.join(l)] *)
Fixpoint join (sep : string) (l : list string) : string :=
  match l with
  | [] => ""
  | [x] => x
  | x :: l' => x ++ sep ++ join sep l'
  end.

(** [os.path.basename(p)] (POSIX): what follows the last slash. *)
Definition basename (p : string) : string :=
  List.last (split "/"%char p) "".

(** One step of [os.path.join] (POSIX): an absolute component resets the
    path, otherwise components are glued with exactly one slash. *)
Definition path_join2 (path b : string) : string :=
  if String.prefix "/" b then b
  else if String.eqb path "" then b
  else if String.eqb (slice (-1) (len path) path) "/" then path ++ b
  else path ++ "/" ++ b.

(** [os.path.join(a, *p)] *)
Definition path_join (a : string) (p : list string) : string :=
  fold_left path_join2 p a.

(** [x < y] and [x > y] on strings: lexicographic on code points. *)
Fixpoint str_ltb (x y : string) : bool :=
  match x, y with
  | EmptyString, EmptyString => false
  | EmptyString, String _ _ => true
  | String _ _, EmptyString => false
  | String a x', String b y' =>
      if (nat_of_ascii a <? nat_of_ascii b)%nat then true
      else if (nat_of_ascii b <? nat_of_ascii a)%nat then false
      else str_ltb x' y'
  end.

Definition str_gtb (x y : string) : bool := str_ltb y x.
Definition str_geb (x y : string) : bool := negb (str_ltb x y).

(** [c in s] for a character. *)
Fixpoint has_char (c : ascii) (s : string) : bool :=
  match s with
  | EmptyString => false
  | String d s' => Ascii.eqb d c || has_char c s'
  end.

End Py.

(** ** The file-name codec *)

(** [parse_file_names], lines 1325-1369, for a list argument: one tuple per
    name.  A six-segment name gets the empty optional descriptor inserted;
    the last segment loses its leading "v" and its ".cdf". *)
Definition parse_file_name1 (file : string) : result (list string) :=
  let parts := Py.split "_"%char (Py.basename file) in
  let parts := if (length parts =? 6)%nat then Py.insert (-2) "" parts else parts in
  do last_seg <- Py.index parts (-1);
  Py.set_last (Py.slice 1 (-4) last_seg) parts.

Definition parse_file_names (fnames : list string) : result (list (list string)) :=
  map_result parse_file_name1 fnames.

(** [construct_filename], lines 914-1003.  Every argument has already been
    turned into a list (a scalar string [x] is passed as [[x]]); [optdesc]
    is [None] when the optional descriptor is omitted.  The nested
    comprehension is the cartesian product in the source's loop order. *)
Definition construct_filename (sc instr mode level tstart version : list string)
    (optdesc : option (list string)) : list string :=
  match optdesc with
  | None =>
      s ← sc; i ← instr; m ← mode; l ← level; t ← tstart; v ← version;
      [Py.join "_" [s; i; m; l; t; "v" ++ v ++ ".cdf"]]
  | Some optdesc =>
      s ← sc; i ← instr; m ← mode; l ← level; o ← optdesc; t ← tstart; v ← version;
      [Py.join "_" [s; i; m; l; o; t; "v" ++ v ++ ".cdf"]]
  end.


(** A name segment is valid when it contains neither the segment delimiter
    nor the path separator that [os.path.basename] cuts at.  Version
    strings "X.Y.Z" and digit timestamps are of this kind. *)
Definition valid_segment (s : string) : Prop :=
  Py.has_char "_"%char s = false /\ Py.has_char "/"%char s = false.

(** The descriptor of the parsed tuple: empty when it was omitted. *)
Definition normalized (optdesc : option string) : string :=
  match optdesc with
  | None => ""
  | Some o => o
  end.

(** ** Dates and times *)

(** A naive [datetime.datetime] is the number of microseconds since
    0001-01-01T00:00:00 in the proleptic Gregorian calendar, the calendar
    of Python's [datetime] module; the helper names follow [datetime.py]. *)
Module Datetime.

Abbreviation t := Z.

Definition usec_per_second : Z := 1000000.
Definition usec_per_day : Z := 86400 * usec_per_second.

Definition is_leap (y : Z) : bool :=
  (y mod 4 =? 0) && (negb (y mod 100 =? 0) || (y mod 400 =? 0)).

Definition days_in_month (y m : Z) : Z :=
  if m =? 2 then (if is_leap y then 29 else 28)
  else if (m =? 4) || (m =? 6) || (m =? 9) || (m =? 11) then 30
  else 31.

Definition days_before_year (y : Z) : Z :=
  let y1 := y - 1 in y1 * 365 + y1 / 4 - y1 / 100 + y1 / 400.

Definition days_before_month (y m : Z) : Z :=
  nth (Z.to_nat (m - 1)) [0; 31; 59; 90; 120; 151; 181; 212; 243; 273; 304; 334] 0
  + (if (2 <? m) && is_leap y then 1 else 0).

(** Ordinal of a calendar day, 0001-01-01 being day 1. *)
Definition ymd2ord (y m d : Z) : Z :=
  days_before_year y + days_before_month y m + d.

(** The constructor [datetime(y, m, d, hh, mi, ss)]: out-of-range fields raise. *)
(** The instant of given calendar fields. *)
Definition of_fields (y m d hh mi ss : Z) : t :=
  (((ymd2ord y m d - 1) * 86400) + hh * 3600 + mi * 60 + ss) * usec_per_second.

Definition make (y m d hh mi ss : Z) : result t :=
  if (1 <=? y) && (y <=? 9999) && (1 <=? m) && (m <=? 12)
     && (1 <=? d) && (d <=? days_in_month y m)
     && (0 <=? hh) && (hh <=? 23) && (0 <=? mi) && (mi <=? 59)
     && (0 <=? ss) && (ss <=? 59)
  then Ok (of_fields y m d hh mi ss)
  else Raise ValueError.

(** [x.date()], as the number of whole days since 0001-01-01. *)
Definition date (x : t) : Z := x / usec_per_day.

(** [x - datetime.timedelta(seconds=n)] *)
Definition sub_seconds (x : t) (n : Z) : t := x - n * usec_per_second.

End Datetime.

(** ** [datetime.strptime] *)

(** [_strptime] compiles a format into a regular expression in which each
    directive is an ordered alternation, matches it against the start of
    the string with backtracking, and rejects input that is not consumed
    entirely.  Every alternative of the directives used here is a run of
    decimal digits of fixed width whose value lies in a range, or, for the
    day, a blank followed by a non-zero digit. *)
Module Strptime.

Inductive alt : Type :=
  | Num (width : nat) (lo hi : Z)
  | BlankDigit
  | Lit (c : ascii).

Definition directive : Type := list alt.

Definition digit_value (c : ascii) : option Z :=
  let n := Z.of_nat (nat_of_ascii c) in
  if (48 <=? n) && (n <=? 57) then Some (n - 48) else None.

(** Reads [w] decimal digits, most significant first. *)
Fixpoint read_digits (w : nat) (acc : Z) (s : string) : option (Z * string) :=
  match w with
  | O => Some (acc, s)
  | S w' =>
      match s with
      | EmptyString => None
      | String c s' =>
          match digit_value c with
          | Some d => read_digits w' (acc * 10 + d) s'
          | None => None
          end
      end
  end.

(** The expression is compiled with [re.IGNORECASE]: a letter of the
    format matches in either case. *)
Definition lower (c : ascii) : ascii :=
  let n := nat_of_ascii c in
  if (65 <=? n)%nat && (n <=? 90)%nat then ascii_of_nat (n + 32) else c.

Definition run_alt (a : alt) (s : string) : option (list Z * string) :=
  match a with
  | Num w lo hi =>
      match read_digits w 0 s with
      | Some (v, rest) => if (lo <=? v) && (v <=? hi) then Some ([v], rest) else None
      | None => None
      end
  | BlankDigit =>
      match s with
      | String " " (String c rest) =>
          match digit_value c with
          | Some d => if 1 <=? d then Some ([d], rest) else None
          | None => None
          end
      | _ => None
      end
  | Lit c =>
      match s with
      | String d rest => if Ascii.eqb (lower c) (lower d) then Some ([], rest) else None
      | EmptyString => None
      end
  end.

(** Leftmost alternative first; a later directive that fails sends the
    matcher back to the next alternative of an earlier one. *)
Fixpoint match_format (fmt : list directive) (s : string) : option (list Z * string) :=
  match fmt with
  | [] => Some ([], s)
  | d :: fmt' =>
      (fix try (alts : list alt) : option (list Z * string) :=
         match alts with
         | [] => None
         | a :: alts' =>
             match run_alt a s with
             | Some (v, rest) =>
                 match match_format fmt' rest with
                 | Some (vs, r) => Some ((v ++ vs)%list, r)
                 | None => try alts'
                 end
             | None => try alts'
             end
         end) d
  end.

(** [%Y]: [\d\d\d\d] *)
Definition dY : directive := [Num 4 0 9999].
(** [%m]: [1[0-2]|0[1-9]|[1-9]] *)
Definition dm : directive := [Num 2 10 12; Num 2 1 9; Num 1 1 9].
(** [%d]: [3[01]|[12]\d|0[1-9]|[1-9]| [1-9]] *)
Definition dd : directive := [Num 2 30 31; Num 2 10 29; Num 2 1 9; Num 1 1 9; BlankDigit].
(** [%H]: [2[0-3]|[0-1]\d|\d] *)
Definition dH : directive := [Num 2 20 23; Num 2 0 19; Num 1 0 9].
(** [%M]: [[0-5]\d|\d] *)
Definition dM : directive := [Num 2 0 59; Num 1 0 9].
(** [%S]: [6[0-1]|[0-5]\d|\d] *)
Definition dS : directive := [Num 2 60 61; Num 2 0 59; Num 1 0 9].

(** ['%Y%m%d'] *)
Definition fmt_Ymd : list directive := [dY; dm; dd].
(** ['%Y%m%d%H%M%S'] *)
Definition fmt_YmdHMS : list directive := [dY; dm; dd; dH; dM; dS].
(** ['%Y-%m-%d'] *)
Definition fmt_iso_date : list directive :=
  [dY; [Lit "-"]; dm; [Lit "-"]; dd].
(** ['%Y-%m-%dT%H:%M:%S'] *)
Definition fmt_iso : list directive :=
  [dY; [Lit "-"]; dm; [Lit "-"]; dd; [Lit "T"]; dH; [Lit ":"]; dM; [Lit ":"]; dS].

(** [datetime.datetime.strptime(s, fmt)] *)
Definition strptime (s : string) (fmt : list directive) : result Datetime.t :=
  match match_format fmt s with
  | Some (vs, EmptyString) =>
      match vs with
      | [y; m; d] => Datetime.make y m d 0 0 0
      | [y; m; d; hh; mi; ss] => Datetime.make y m d hh mi ss
      | _ => Raise ValueError
      end
  | _ => Raise ValueError
  end.

End Strptime.

(** The start time embedded in a file name (lines 1207-1209 and 261-264):
    an eight-character stamp is a date, any other a full time stamp. *)
Definition file_start (tstart : string) : result Datetime.t :=
  if Py.len tstart =? 8 then Strptime.strptime tstart Strptime.fmt_Ymd
  else Strptime.strptime tstart Strptime.fmt_YmdHMS.

(** ** Sequence helpers used by the filters *)

(** [range(n)] *)
Definition range (n : nat) : list Z := Z.of_nat <$> seq 0 n.

(** [enumerate(l)] *)
Definition enumerate {A} (l : list A) : list (Z * A) := zip (range (length l)) l.

(** [[l[i] for i in idx]] *)
Definition gather {A} (l : list A) (idx : list Z) : result (list A) :=
  map_result (Py.index l) idx.

(** Insertion of a decorated item in front of the first item whose key is
    not smaller. *)
Fixpoint place {A} (x : Z * A) (s : list (Z * A)) : list (Z * A) :=
  match s with
  | [] => [x]
  | y :: s' => if x.1 <=? y.1 then x :: y :: s' else y :: place x s'
  end.

(** A stable sort of decorated items by ascending key: items are placed
    from the back, so that on equal keys an earlier item stays ahead of a
    later one. *)
Fixpoint stable_sort {A} (l : list (Z * A)) : list (Z * A) :=
  match l with
  | [] => []
  | x :: l' => place x (stable_sort l')
  end.

(** [sorted(l, key=key)]: the keys are computed once, left to right, and
    the items are ordered by them, ties in their original order. *)
Definition sorted {A} (l : list A) (key : A -> result Z) : result (list A) :=
  do keys <- map_result key l;
  Ok (snd <$> stable_sort (zip keys l)).

(** ** The time-range filter *)

(** Lines 1205-1210 of [filter_time]: the start time of every name. *)
Definition file_starts (fnames : list string) : result (list Datetime.t) :=
  do parts <- parse_file_names fnames;
  map_result (fun name => do tstart <- Py.index name (-2); file_start tstart) parts.

(** Lines 1212-1215: both lists reordered by ascending start time. *)
Definition sort_by_start (fstart : list Datetime.t) (files : list string)
  : result (list Datetime.t * list string) :=
  do isort <- sorted (range (length fstart)) (fun k => Py.index fstart k);
  do fstart' <- gather fstart isort;
  do files' <- gather files isort;
  Ok (fstart', files').

(** Lines 1217-1225: files that start on or before [end_date]. *)
Definition end_filter (fstart : list Datetime.t) (files : list string)
    (end_date : Datetime.t) : result (list Datetime.t * list string) :=
  let idx := fst <$> List.filter (fun it => it.2 <=? end_date) (enumerate fstart) in
  if (0 <? length idx)%nat then
    do fstart' <- gather fstart idx;
    do files' <- gather files idx;
    Ok (fstart', files')
  else Ok ([], []).

(** Lines 1227-1246: files from [start_date] on, and the file before them.
    Both operands of [&] are evaluated, whatever the left one is. *)
Definition start_filter (fstart : list Datetime.t) (files : list string)
    (start_date : Datetime.t) : result (list string) :=
  let idx := fst <$> List.filter (fun it => start_date <=? it.2) (enumerate fstart) in
  do last <- Py.index fstart (-1);
  do idx <-
    (if (length idx =? 0)%nat && (Datetime.date last =? Datetime.date start_date)
     then Ok [Z.of_nat (length fstart) - 1]
     else
       do i0 <- Py.index idx 0;
       do t0 <- Py.index fstart i0;
       if negb (length idx =? 0)%nat && (negb (i0 =? 0) && negb (t0 =? start_date))
       then Ok (Py.insert 0 (i0 - 1) idx)
       else Ok idx);
  if (0 <? length idx)%nat then
    do _ <- gather fstart idx;
    gather files idx
  else Ok [].

(** [filter_time], lines 1181-1248, for a list of names. *)
Definition filter_time (fnames : list string) (start_date end_date : Datetime.t)
  : result (list string) :=
  do fstart <- file_starts fnames;
  do sorted_lists <- sort_by_start fstart fnames;
  do kept <- end_filter sorted_lists.1 sorted_lists.2 end_date;
  start_filter kept.1 kept.2 start_date.

(** ** The interval resolver *)

(** Modelled from the spec: [sunpy.time.TimeRange], the class of the
    intervals, belongs to an external package and is not among the sources.
    The specification's Interval is the pair of a start and an end time;
    [tr_start] and [tr_end] are the attributes [start] and [end] of the
    class. *)
Record TimeRange : Type := mkTimeRange {
  tr_start : Datetime.t;
  tr_end : Datetime.t
}.

(** The call [sunpy.time.TimeRange(a, b)] on two times.  The class puts
    its two times in order: when [b] is earlier than [a], the range starts
    at [b] and ends at [a]. *)
Definition TimeRange_init (a b : Datetime.t) : TimeRange :=
  if b <? a then mkTimeRange b a else mkTimeRange a b.

(** A loop whose body may raise. *)
Fixpoint foldl_result {S A} (f : S -> A -> result S) (s : S) (l : list A) : result S :=
  match l with
  | [] => Ok s
  | x :: l' => do s' <- f s x; foldl_result f s' l'
  end.

(** Reading a local variable that no assignment has reached yet. *)
Definition local {A} (v : option A) : result A :=
  match v with
  | Some a => Ok a
  | None => Raise UnboundLocalError
  end.

(** One iteration of the loop of lines 259-273.  The loop state is the
    list [trange], whose unset slots hold [None], and the local [end]. *)
Definition intervals_step (parts : list (list string)) (end_date : Datetime.t)
    (nfiles : nat) (st : list (option TimeRange) * option Datetime.t) (i : Z)
  : result (list (option TimeRange) * option Datetime.t) :=
  let '(trange, end_var) := st in
  do part <- Py.index parts i;
  do tstart <- Py.index part 5;
  do start <- file_start tstart;
  do end_var <-
    (if i =? Z.of_nat nfiles - 1 then Ok (Some end_date)
     else if 0 <=? i then
       do next <- Py.index trange (i + 1);
       match next with
       | Some r => Ok (Some (Datetime.sub_seconds (tr_start r) 1))
       | None => Raise AttributeError
       end
     else Ok end_var);
  do end_time <- local end_var;
  Ok (<[Z.to_nat i := Some (TimeRange_init start end_time)]> trange, end_var).

(** [MMSDownloader.intervals], lines 226-275.  [fnames] is what
    [self.file_names()] returned and [end_date] is [self.end_date]. *)
Definition intervals (end_date : Datetime.t) (fnames : list string)
  : result (list (option TimeRange)) :=
  let nfiles := length fnames in
  do parts <- parse_file_names fnames;
  do st <- foldl_result (intervals_step parts end_date nfiles)
             (replicate nfiles None, None) (reverse (range nfiles));
  Ok st.1.

(** The start times [intervals] reads, from field 5 of every parsed name. *)
Definition interval_starts (fnames : list string) : result (list Datetime.t) :=
  do parts <- parse_file_names fnames;
  map_result (fun part => do tstart <- Py.index part 5; file_start tstart) parts.

(** The algorithm of the specification's interval resolver: the end of an
    interval is one second before the next start, the last end is the end
    of the query. *)
Fixpoint ranges_of (end_date : Datetime.t) (starts : list Datetime.t) : list TimeRange :=
  match starts with
  | [] => []
  | s :: rest =>
      mkTimeRange s (match rest with
                     | [] => end_date
                     | s' :: _ => Datetime.sub_seconds s' 1
                     end) :: ranges_of end_date rest
  end.

(** What the loop of [intervals] builds, last file first: every range goes
    through the constructor of the class, and the end of a range is read
    from the start of the range built before it. *)
Fixpoint built_ranges (end_date : Datetime.t) (starts : list Datetime.t)
  : list TimeRange :=
  match starts with
  | [] => []
  | s :: rest =>
      let built := built_ranges end_date rest in
      TimeRange_init s (match built with
                        | [] => end_date
                        | r :: _ => Datetime.sub_seconds (tr_start r) 1
                        end) :: built
  end.

(** ** Paths *)

(** [construct_path], lines 1006-1130, with every argument already a list;
    [files] selects the variant that appends a file-name pattern. *)
Definition construct_path (sc instr mode level tstart : list string)
    (optdesc : option (list string)) (root : string) (files : bool) : list string :=
  let y t := Py.slice 0 4 t in
  let mo t := Py.slice 4 6 t in
  let dy t := Py.slice 6 8 t in
  if files then
    match optdesc with
    | None =>
        s ← sc; i ← instr; m ← mode; l ← level; t ← tstart;
        [if String.eqb m "brst"
         then Py.path_join root [s; i; m; l; y t; mo t; dy t;
                                 Py.join "_" [s; i; m; l; t ++ "*"; "v*.cdf"]]
         else Py.path_join root [s; i; m; l; y t; mo t;
                                 Py.join "_" [s; i; m; l; t ++ "*"; "v*.cdf"]]]
    | Some optdesc =>
        s ← sc; i ← instr; m ← mode; l ← level; o ← optdesc; t ← tstart;
        [if String.eqb m "brst"
         then Py.path_join root [s; i; m; l; o; y t; mo t; dy t;
                                 Py.join "_" [s; i; m; l; o; t ++ "*"; "v*.cdf"]]
         else Py.path_join root [s; i; m; l; o; y t; mo t;
                                 Py.join "_" [s; i; m; l; o; t ++ "*"; "v*.cdf"]]]
    end
  else
    match optdesc with
    | None =>
        s ← sc; i ← instr; m ← mode; l ← level; t ← tstart;
        [if String.eqb m "brst"
         then Py.path_join root [s; i; m; l; y t; mo t; dy t]
         else Py.path_join root [s; i; m; l; y t; mo t]]
    | Some optdesc =>
        s ← sc; i ← instr; m ← mode; l ← level; o ← optdesc; t ← tstart;
        [if String.eqb m "brst"
         then Py.path_join root [s; i; m; l; o; y t; mo t; dy t]
         else Py.path_join root [s; i; m; l; o; y t; mo t]]
    end.

(** The module-level functions from names to parsed tuples.  A global name
    is resolved when the call is executed; a name the module never binds
    raises [NameError]. *)
Definition module_parsers
  : list (string * (list string -> result (list (list string)))) :=
  [("parse_file_names", parse_file_names)].

Definition global (name : string)
  : result (list string -> result (list (list string))) :=
  match List.find (fun b => String.eqb b.1 name) module_parsers with
  | Some b => Ok b.2
  | None => Raise NameError
  end.

(** The loop of [filename2path], lines 1164-1176, over the parsed names. *)
Definition filename2path_loop (fnames : list string) (root : string)
    (parts : list (list string)) : result (list string) :=
  map_result (fun it : Z * list string =>
    let '(idx, part) := it in
    do tstart <- Py.index part 5;
    let path := Py.path_join root
      (Py.lslice 0 5 part ++ [Py.slice 0 4 tstart; Py.slice 4 6 tstart])%list in
    do field3 <- Py.index part 3;
    let path := if String.eqb field3 "brst"
                then Py.path_join path [Py.slice 6 8 tstart] else path in
    do fname <- Py.index fnames idx;
    Ok (Py.path_join path [fname])) (enumerate parts).

(** [filename2path], lines 1133-1178, for a list of names. *)
Definition filename2path (fnames : list string) (root : string) : result (list string) :=
  do parse_filename <- global "parse_filename";
  do parts <- parse_filename fnames;
  filename2path_loop fnames root parts.

(** [MMSDownloader.name2path], lines 700-737, the sibling of
    [filename2path]; [data_root] is [self.data_root]. *)
Definition name2path (data_root : string) (filename : string) : result string :=
  let parts := Py.split "_"%char filename in
  do field2 <- Py.index parts 2;
  do tstart <- Py.index parts (-2);
  if String.eqb field2 "brst" then
    Ok (Py.path_join data_root
          (Py.lslice 0 (-2) parts
           ++ [Py.slice 0 4 tstart; Py.slice 4 6 tstart; Py.slice 6 8 tstart; filename])%list)
  else
    Ok (Py.path_join data_root
          (Py.lslice 0 (-2) parts
           ++ [Py.slice 0 4 tstart; Py.slice 4 6 tstart; filename])%list).

(** ** The version filter *)

(** [min] inside [filter_version] is the builtin function, which is an
    object, so [min is None] is false on every call. *)
Definition builtin_min_is_None : bool := false.

(** Truth value of the [latest] argument: [None], [False] or [True]. *)
Definition truthy (latest : option bool) : bool :=
  match latest with
  | Some b => b
  | None => false
  end.

(** [for a, b in s] on a string [s]: exactly two characters unpack. *)
Definition unpack2 (s : string) : result (string * string) :=
  match s with
  | String a (String b EmptyString) => Ok (String a "", String b "")
  | _ => Raise ValueError
  end.

(** [x.split('.')] on an optional argument: [None] has no [split]. *)
Definition attr_split (x : option string) : result (list string) :=
  match x with
  | Some s => Ok (Py.split "."%char s)
  | None => Raise AttributeError
  end.

(** The tests of lines 1294-1296 and 1305-1307: version components are the
    strings [split] returns and are compared as strings.  [last] is the
    comparison of the incremental component, [>] or [>=]. *)
Definition version_test (last : string -> string -> bool) (vXYZ vXYZ_ref : list string)
  : result bool :=
  do a0 <- Py.index vXYZ 0;
  do b0 <- Py.index vXYZ_ref 0;
  if Py.str_gtb a0 b0 then Ok true
  else
    do second <-
      (if String.eqb a0 b0 then
         do a1 <- Py.index vXYZ 1;
         do b1 <- Py.index vXYZ_ref 1;
         Ok (Py.str_gtb a1 b1)
       else Ok false);
    if second then Ok true
    else if String.eqb a0 b0 then
      do a1 <- Py.index vXYZ 1;
      do b1 <- Py.index vXYZ_ref 1;
      if String.eqb a1 b1 then
        do a2 <- Py.index vXYZ 2;
        do b2 <- Py.index vXYZ_ref 2;
        Ok (last a2 b2)
      else Ok false
    else Ok false.

(** The test of lines 1316-1318. *)
Definition version_equal (vXYZ vXYZ_ref : list string) : result bool :=
  do a0 <- Py.index vXYZ 0;
  do b0 <- Py.index vXYZ_ref 0;
  if String.eqb a0 b0 then
    do a1 <- Py.index vXYZ 1;
    do b1 <- Py.index vXYZ_ref 1;
    if String.eqb a1 b1 then
      do a2 <- Py.index vXYZ 2;
      do b2 <- Py.index vXYZ_ref 2;
      Ok (String.eqb a2 b2)
    else Ok false
  else Ok false.

(** Lines 1280-1298, the "latest" branch, once the parser is resolved.
    [list(set(bases))] lists each distinct base once, in an order Python
    does not fix; the loop uses only the position [idx] and the test
    against [uniq_base].  An element of [test_idx] is a one-character
    string, and a list subscripted by a string raises [TypeError]. *)
Definition filter_latest (parse : list string -> result (list (list string)))
    (files : list string) : result (list string) :=
  do parts <- parse files;
  let bases := (fun part => Py.join "_" (Py.lslice 0 (-2) part)) <$> parts in
  do versions <- map_result (fun part => Py.index part (-1)) parts;
  let uniq_bases := remove_dups bases in
  foldl_result (fun filtered_files (it : Z * string) =>
    let '(idx, uniq_base) := it in
    do pairs <- map_result unpack2 bases;
    let test_idx := fst <$> List.filter (fun p : string * string => String.eqb p.2 uniq_base) pairs in
    do file_ref <- Py.index files idx;
    do version_ref <- Py.index versions idx;
    let vXYZ_ref := Py.split "."%char version_ref in
    let filtered_files := (filtered_files ++ [file_ref])%list in
    foldl_result (fun filtered_files (i : string) =>
      Raise TypeError) filtered_files test_idx)
    [] (enumerate uniq_bases).

(** Lines 1302-1309, the "min_version" branch.  [versions] is the local the
    "latest" branch assigns: [None] when that branch was not taken. *)
Definition filter_min_version (versions : option (list string)) (files : list string)
    (min_version : string) : result (list string) :=
  let vXYZ_min := Py.split "."%char min_version in
  do versions <- local versions;
  foldl_result (fun filtered_files (it : Z * string) =>
    let '(idx, v) := it in
    let vXYZ := Py.split "."%char v in
    do keep <- version_test Py.str_geb vXYZ vXYZ_min;
    if keep then
      do file <- Py.index files idx;
      Ok (filtered_files ++ [file])%list
    else Ok filtered_files)
    [] (enumerate versions).

(** Lines 1313-1320, the "version" branch, which reads [min_version]. *)
Definition filter_exact_version (versions : option (list string)) (files : list string)
    (min_version : option string) : result (list string) :=
  do vXYZ_ref <- attr_split min_version;
  do versions <- local versions;
  foldl_result (fun filtered_files (it : Z * string) =>
    let '(idx, v) := it in
    let vXYZ := Py.split "."%char v in
    do keep <- version_equal vXYZ vXYZ_ref;
    if keep then
      do file <- Py.index files idx;
      Ok (filtered_files ++ [file])%list
    else Ok filtered_files)
    [] (enumerate versions).

(** The expression statement of line 1271: the exception object is built
    when the test holds, and dropped; nothing is raised. *)
Definition conflict_check (latest : option bool) (version min_version : option string)
  : option exn :=
  if 1 <? Z.b2z (bool_decide (version = None))
          + Z.b2z (bool_decide (min_version = None))
          + Z.b2z (bool_decide (latest = None))
  then Some ValueError else None.

(** [filter_version], lines 1251-1322, for a list of names. *)
Definition filter_version (files : list string) (latest : option bool)
    (version min_version : option string) : result (list string) :=
  let latest :=
    if bool_decide (version = None) && builtin_min_is_None then Some true else latest in
  let _ := conflict_check latest version min_version in
  if truthy latest then
    do mms_parse_filename <- global "mms_parse_filename";
    filter_latest mms_parse_filename files
  else
    match min_version with
    | Some min_version => filter_min_version None files min_version
    | None =>
        match version with
        | Some _ => filter_exact_version None files min_version
        | None => Ok []
        end
    end.

(** The version of a parsed name as three integers: the order the
    specification asks for compares these. *)
Definition version_numbers (version : string) : option (Z * Z * Z) :=
  let number (s : string) : option Z :=
    match s with
    | EmptyString => None
    | _ => match Strptime.read_digits (String.length s) 0 s with
           | Some (n, _) => Some n
           | None => None
           end
    end in
  match Py.split "."%char version with
  | [x; y; z] =>
      match number x, number y, number z with
      | Some a, Some b, Some c => Some (a, b, c)
      | _, _, _ => None
      end
  | _ => None
  end.

(** Numeric order on versions: major, then minor, then incremental. *)
Definition version_le (v w : Z * Z * Z) : Prop :=
  let '(a, b, c) := v in
  let '(a', b', c') := w in
  a < a' \/ (a = a' /\ (b < b' \/ (b = b' /\ c <= c'))).

(** ** The downloader's attributes *)

(** The Python values an attribute of [MMSDownloader] holds.  A
    [pathlib.PosixPath] is kept as the segments it was built from:
    [pathlib.Path(a) / b] is [PPath [a; b]]. *)
Inductive pyval : Type :=
  | PNone
  | PBool (b : bool)
  | PStr (s : string)
  | PList (l : list string)
  | PDatetime (d : Datetime.t)
  | PPath (segments : list string)
  | PObject (class : string).

#[global] Instance pyval_eq_dec : EqDecision pyval.
Proof. solve_decision. Defined.

(** [value in members] *)
Definition py_in (value : pyval) (members : list pyval) : bool :=
  existsb (fun m => bool_decide (m = value)) members.

Module MMSDownloader.

(** The instance dictionary. *)
Abbreviation obj := (gmap string pyval).

(** The conversion of the [start_date] and [end_date] branches, lines
    173-182 and 211-220: a string is parsed as a time stamp, else as a
    date; when both fail the error object is built and dropped, and the
    string stays. *)
Definition convert_date (value : pyval) : pyval :=
  match value with
  | PStr s =>
      match Strptime.strptime (Py.slice 0 19 s) Strptime.fmt_iso with
      | Ok d => PDatetime d
      | Raise _ =>
          match Strptime.strptime s Strptime.fmt_iso_date with
          | Ok d => PDatetime d
          | Raise _ => value
          end
      end
  | _ => value
  end.

(** The body of [__setattr__], lines 159-223.  [self_set] is what an
    assignment [self.x = v] inside the body calls, [__setattr__] itself. *)
Definition setattr_body (self_set : string -> pyval -> obj -> result obj)
    (name : string) (value : pyval) (self : obj) : result obj :=
  do sv <-
    (if String.eqb name "anc_product" then
       do self <- self_set "data_type" (PStr "ancillary") self;
       Ok (self, value)
     else if String.eqb name "data_type" then
       if negb (py_in value [PStr "ancillary"; PStr "hk"; PStr "science"])
       then Raise ValueError else Ok (self, value)
     else if String.eqb name "end_date" then Ok (self, convert_date value)
     else if String.eqb name "files" then
       if negb (bool_decide (value = PNone)) then
         do self <- self_set "sc" PNone self;
         do self <- self_set "instr" PNone self;
         do self <- self_set "mode" PNone self;
         do self <- self_set "level" PNone self;
         do self <- self_set "optdesc" PNone self;
         do self <- self_set "version" PNone self;
         Ok (self, value)
       else Ok (self, value)
     else if String.eqb name "level" then
       if py_in value [PNone; PStr "l2"; PStr "l3"] then
         do self <- self_set "site" (PStr "public") self; Ok (self, value)
       else
         do self <- self_set "site" (PStr "private") self; Ok (self, value)
     else if String.eqb name "site" then
       if py_in value [PStr "private"; PStr "team"; PStr "sitl"] then Ok (self, PStr "sitl")
       else if bool_decide (value = PStr "public") then Ok (self, PStr "public")
       else Raise ValueError
     else if String.eqb name "start_date" then Ok (self, convert_date value)
     else Ok (self, value));
  Ok (<[name := sv.2]> sv.1).

(** The attributes [__setattr__] has a branch for. *)
Definition derived_names : list string :=
  ["anc_product"; "data_type"; "end_date"; "files"; "level"; "site"; "start_date"].

Definition is_plain (name : string) : bool :=
  negb (existsb (String.eqb name) derived_names).

(** Assignments nest at most three deep ([files] sets [level], which sets
    [site]), so three unfoldings of the body are the whole method. *)
Definition setattr_bottom (name : string) (value : pyval) (self : obj) : result obj :=
  Raise RecursionError.

Definition __setattr__ : string -> pyval -> obj -> result obj :=
  setattr_body (setattr_body (setattr_body setattr_bottom)).

(** Arguments of the constructor, defaults as in the signature. *)
Record init_args : Type := {
  sc : pyval; instr : pyval; mode : pyval; level : pyval;
  anc_product : pyval; data_type : pyval; data_root : pyval;
  dropbox_root : pyval; end_date : pyval; files : pyval;
  mirror_root : pyval; offline : pyval; optdesc : pyval;
  site : pyval; start_date : pyval; version : pyval
}.


(** [__init__], lines 44-152.  [download_dir] is
    [heliopy.config['download_dir']]. *)
Definition __init__ (download_dir : string) (a : init_args) : result obj :=
  do self <- __setattr__ "site" (site a) ∅;
  do self <- __setattr__ "anc_product" (anc_product a) self;
  do self <- __setattr__ "data_type" (data_type a) self;
  do self <- __setattr__ "dropbox_root" (dropbox_root a) self;
  do self <- __setattr__ "end_date" (end_date a) self;
  do self <- __setattr__ "instr" (instr a) self;
  do self <- __setattr__ "level" (level a) self;
  do self <- __setattr__ "mirror_root" (mirror_root a) self;
  do self <- __setattr__ "mode" (mode a) self;
  do self <- __setattr__ "offline" (offline a) self;
  do self <- __setattr__ "optdesc" (optdesc a) self;
  do self <- __setattr__ "sc" (sc a) self;
  do self <- __setattr__ "start_date" (start_date a) self;
  do self <- __setattr__ "version" (version a) self;
  do self <- __setattr__ "files" (files a) self;
  let data_root :=
    if bool_decide (data_root a = PNone)
    then PPath [download_dir; "mms"] else data_root a in
  do self <- __setattr__ "data_root" data_root self;
  do self <- __setattr__ "_sdc_home" (PStr "https://lasp.colorado.edu/mms/sdc") self;
  do self <- __setattr__ "_info_type" (PStr "download") self;
  __setattr__ "_session" (PObject "requests.Session") self.

End MMSDownloader.

(** ** Notions used to state the properties of the time-range filter *)

(** The candidates of the start-time stage: the files paired with their
    start times, in ascending order of start time, those starting after
    [end_date] left out. *)
Definition candidates (starts : list Datetime.t) (fnames : list string)
    (end_date : Datetime.t) : list (Datetime.t * string) :=
  List.filter (fun p => p.1 <=? end_date) (stable_sort (zip starts fnames)).

(** Some file starts exactly at [start_date]. *)
Definition starts_exactly (starts : list Datetime.t) (start_date : Datetime.t) : bool :=
  existsb (fun t => t =? start_date) starts.

(** An index paired with a key denotes the item of [l] at that index,
    paired with the same key. *)
Definition at_index {A} (l : list A) (q : Z * Z) (p : Z * A) : Prop :=
  q.1 = p.1 /\ 0 <= q.2 /\ l !! Z.to_nat q.2 = Some p.2.

(** Ascending keys. *)
Definition key_le {A} (p q : Z * A) : Prop := p.1 <= q.1.

(** ** Names used in the scenarios *)

Module Scenario.

Definition f_20181231 : string := "mms1_fpi_fast_l2_20181231_v1.0.0.cdf".
Definition f_20190101 : string := "mms1_fpi_fast_l2_20190101_v1.0.0.cdf".
Definition f_20190102 : string := "mms1_fpi_fast_l2_20190102_v1.0.0.cdf".
Definition f_20190105 : string := "mms1_fpi_fast_l2_20190105_v1.0.0.cdf".

Definition f_v9_9_9 : string := "mms1_fpi_fast_l2_20190101_v9.9.9.cdf".
Definition f_v10_0_0 : string := "mms1_fpi_fast_l2_20190101_v10.0.0.cdf".

Definition f_brst : string := "mms1_fpi_brst_l2_dis-moms_20190101120000_v1.0.0.cdf".
Definition f_fast : string := "mms1_fpi_fast_l2_dis-moms_20190101_v1.0.0.cdf".

End Scenario.

(** ** Further functions of the module *)

(** [MMSDownloader.parse_file_name], lines 740-775: as [parse_file_names]
    on one name, but the last segment keeps its leading "v" and only loses
    the four characters of ".cdf". *)
Definition parse_file_name (filename : string) : result (list string) :=
  let parts := Py.split "_"%char (Py.basename filename) in
  let parts := if (length parts =? 6)%nat then Py.insert (-2) "" parts else parts in
  do last_seg <- Py.index parts (-1);
  Py.set_last (Py.slice 0 (-4) last_seg) parts.

(** The number of fields of the tuple [parse_file_names] returns for a
    name: seven for a base name of six segments, else as many as it has. *)
Definition arity (fname : string) : nat :=
  let n := length (Py.split "_"%char (Py.basename fname)) in
  if (n =? 6)%nat then 7%nat else n.

(** [parse_time], lines 1372-1402, for a list of time stamps. *)
Definition parse_time (times : list string) : list (list string) :=
  (fun time => [Py.slice 0 4 time; Py.slice 4 6 time; Py.slice 6 8 time;
                Py.slice 8 10 time; Py.slice 10 12 time; Py.slice 12 14 time])
  <$> times.

(** [MMSDownloader.remote2localnames], lines 834-862; [data_root] is
    [self.data_root].  The test of line 859 compares a type with the string
    'str' and never holds, so a list is returned. *)
Definition remote2localnames (data_root : string) (remote_names : list string)
  : list string :=
  (fun file => Py.path_join data_root (drop 2 (Py.split "/"%char file)))
  <$> remote_names.

(** The start time of one file, as lines 1206-1210 compute it for every
    name of the list. *)
Definition start_of (fname : string) : result Datetime.t :=
  do name <- parse_file_name1 fname;
  do tstart <- Py.index name (-2);
  file_start tstart.

(** ** The state handling of [MMSDownloader.downloads] *)

Module Downloads.

Import MMSDownloader.

(** [self.name]: an attribute never assigned raises. *)
Definition getattr (self : obj) (name : string) : result pyval :=
  match self !! name with
  | Some v => Ok v
  | None => Raise AttributeError
  end.

(** Lines 529-537: the site and the selection attributes are saved, the
    dictionary [state] in the order its keys are inserted. *)
Definition save (self : obj) : result (pyval * list (string * pyval)) :=
  do site <- getattr self "site";
  do sc <- getattr self "sc";
  do instr <- getattr self "instr";
  do mode <- getattr self "mode";
  do level <- getattr self "level";
  do optdesc <- getattr self "optdesc";
  do version <- getattr self "version";
  do files <- getattr self "files";
  Ok (site, [("sc", sc); ("instr", instr); ("mode", mode); ("level", level);
             ("optdesc", optdesc); ("version", version); ("files", files)]).

(** Lines 538-540: the remote files are selected by name and the site is
    put back. *)
Definition select (self : obj) (remote_files : list string) (site : pyval)
  : result obj :=
  do self <- __setattr__ "files"
               (PList ((fun file => List.last (Py.split "/"%char file) "")
                       <$> remote_files)) self;
  __setattr__ "site" site self.

(** Lines 577-579 (and 570-572): every saved attribute is assigned back,
    [files] being reset before each one. *)
Definition restore (state : list (string * pyval)) (self : obj) : result obj :=
  foldl_result (fun self (kv : string * pyval) =>
    do self <- __setattr__ "files" PNone self;
    __setattr__ kv.1 kv.2 self) self state.

End Downloads.

(** ** Notions used to state the properties of the attributes *)

(** The levels that [__setattr__] makes public. *)
Definition public_level (value : pyval) : bool :=
  py_in value [PNone; PStr "l2"; PStr "l3"].

(** The values [__setattr__] accepts for [site] and for [data_type]. *)
Definition site_accepted (value : pyval) : bool :=
  py_in value [PStr "private"; PStr "team"; PStr "sitl"; PStr "public"].

Definition data_type_accepted (value : pyval) : bool :=
  py_in value [PStr "ancillary"; PStr "hk"; PStr "science"].

(** The site stored for an accepted value. *)
Definition site_stored (value : pyval) : pyval :=
  if py_in value [PStr "private"; PStr "team"; PStr "sitl"]
  then PStr "sitl" else PStr "public".

(** The site derived from a level. *)
Definition site_of_level (level : pyval) : pyval :=
  if public_level level then PStr "public" else PStr "sitl".

(** An instance dictionary whose [site] and [data_type], when set, hold
    one of the values the URL of the data centre is built from. *)
Definition well_formed (self : gmap string pyval) : Prop :=
  (forall v, self !! "site" = Some v -> v = PStr "sitl" \/ v = PStr "public")
  /\ (forall v, self !! "data_type" = Some v -> data_type_accepted v = true).

(** The dictionary after [self.files = value]. *)
Definition files_assigned (value : pyval) (self : gmap string pyval)
  : gmap string pyval :=
  if bool_decide (value = PNone) then <["files" := value]> self
  else <["files" := value]> (<["version" := PNone]> (<["optdesc" := PNone]>
       (<["level" := PNone]> (<["site" := PStr "public"]> (<["mode" := PNone]>
       (<["instr" := PNone]> (<["sc" := PNone]> self))))))).

(** The dictionary the constructor builds when none of its assignments
    raises, assignment by assignment. *)
Definition init_state (download_dir : string) (a : MMSDownloader.init_args)
  : gmap string pyval :=
  let s := <["site" := site_stored (MMSDownloader.site a)]> ∅ in
  let s := <["anc_product" := MMSDownloader.anc_product a]>
             (<["data_type" := PStr "ancillary"]> s) in
  let s := <["data_type" := MMSDownloader.data_type a]> s in
  let s := <["dropbox_root" := MMSDownloader.dropbox_root a]> s in
  let s := <["end_date" := MMSDownloader.convert_date (MMSDownloader.end_date a)]> s in
  let s := <["instr" := MMSDownloader.instr a]> s in
  let s := <["level" := MMSDownloader.level a]>
             (<["site" := site_of_level (MMSDownloader.level a)]> s) in
  let s := <["mirror_root" := MMSDownloader.mirror_root a]> s in
  let s := <["mode" := MMSDownloader.mode a]> s in
  let s := <["offline" := MMSDownloader.offline a]> s in
  let s := <["optdesc" := MMSDownloader.optdesc a]> s in
  let s := <["sc" := MMSDownloader.sc a]> s in
  let s := <["start_date" := MMSDownloader.convert_date (MMSDownloader.start_date a)]> s in
  let s := <["version" := MMSDownloader.version a]> s in
  let s := files_assigned (MMSDownloader.files a) s in
  let s := <["data_root" :=
               if bool_decide (MMSDownloader.data_root a = PNone)
               then PPath [download_dir; "mms"]
               else MMSDownloader.data_root a]> s in
  let s := <["_sdc_home" := PStr "https://lasp.colorado.edu/mms/sdc"]> s in
  let s := <["_info_type" := PStr "download"]> s in
  <["_session" := PObject "requests.Session"]> s.

(** Constructor arguments that name an explicit file list, for the
    examples. *)
Definition args_with_files : MMSDownloader.init_args := {|
  MMSDownloader.sc := PStr "mms1"; MMSDownloader.instr := PStr "fpi";
  MMSDownloader.mode := PStr "brst"; MMSDownloader.level := PStr "l1a";
  MMSDownloader.anc_product := PNone; MMSDownloader.data_type := PStr "science";
  MMSDownloader.data_root := PNone; MMSDownloader.dropbox_root := PNone;
  MMSDownloader.end_date := PNone;
  MMSDownloader.files := PList ["mms1_fpi_brst_l2_dis-moms_20190101120000_v1.0.0.cdf"];
  MMSDownloader.mirror_root := PNone; MMSDownloader.offline := PBool false;
  MMSDownloader.optdesc := PStr "dis-moms"; MMSDownloader.site := PStr "private";
  MMSDownloader.start_date := PNone; MMSDownloader.version := PNone
|}.

(** An instance with a science selection and no file list, for the
    examples. *)
Definition selected_instance : gmap string pyval :=
  <["site" := PStr "sitl"]> (<["sc" := PStr "mms1"]> (<["instr" := PStr "fpi"]>
  (<["mode" := PStr "brst"]> (<["level" := PStr "l2"]>
  (<["optdesc" := PStr "dis-moms"]> (<["version" := PNone]>
  (<["files" := PNone]> ∅))))))).
(** ** Facts about the string primitives *)

Section StringFacts.

Lemma has_char_app c (a b : string) :
  Py.has_char c (a ++ b) = Py.has_char c a || Py.has_char c b.
Proof.
  induction a as [|d a IH]; simpl; [reflexivity|].
  rewrite IH. now rewrite orb_assoc.
Qed.

Lemma split_no_sep sep (s : string) :
  Py.has_char sep s = false -> Py.split sep s = [s].
Proof.
  induction s as [|c s IH]; simpl; [reflexivity|].
  intros H. apply orb_false_iff in H as [Hc Hs].
  rewrite Hc, (IH Hs). reflexivity.
Qed.

Lemma split_app sep (a b : string) :
  Py.has_char sep a = false ->
  Py.split sep (a ++ String sep b) = a :: Py.split sep b.
Proof.
  induction a as [|c a IH]; simpl; intros H.
  - now rewrite Ascii.eqb_refl.
  - apply orb_false_iff in H as [Hc Ha].
    rewrite Hc, (IH Ha). reflexivity.
Qed.

Lemma join_cons (x y : string) (l : list string) :
  Py.join "_" (x :: y :: l) = x ++ String "_"%char (Py.join "_" (y :: l)).
Proof. reflexivity. Qed.

Lemma has_char_join c (l : list string) :
  Ascii.eqb "_"%char c = false ->
  Forall (fun s => Py.has_char c s = false) l ->
  Py.has_char c (Py.join "_" l) = false.
Proof.
  intros Hc. induction 1 as [|x l Hx Hl IH]; [reflexivity|].
  destruct l as [|y l]; [exact Hx|].
  rewrite join_cons, has_char_app, Hx. cbn [Py.has_char orb].
  now rewrite Hc, IH.
Qed.

Lemma index_last7 {A} (a b c d e f g : A) :
  Py.index [a; b; c; d; e; f; g] (-1) = Ok g.
Proof. reflexivity. Qed.

Lemma basename_no_slash (s : string) :
  Py.has_char "/"%char s = false -> Py.basename s = s.
Proof.
  intros H. unfold Py.basename. now rewrite (split_no_sep _ _ H).
Qed.

Lemma substring_prefix (v w : string) :
  String.substring 0 (String.length v) (v ++ w) = v.
Proof.
  induction v as [|c v IH]; simpl.
  - destruct w; reflexivity.
  - now rewrite IH.
Qed.

Lemma length_app_string (a b : string) :
  String.length (a ++ b) = (String.length a + String.length b)%nat.
Proof. induction a as [|c a IH]; simpl; [reflexivity | now rewrite IH]. Qed.

(** Dropping the first character and the last four of a string. *)
Lemma slice_strip (a : ascii) (v w : string) :
  String.length w = 4%nat -> Py.slice 1 (-4) (String a (v ++ w)) = v.
Proof.
  intros Hw. unfold Py.slice, Py.len, Py.clamp.
  cbn [String.length]. rewrite length_app_string, Hw.
  change (1 <? 0) with false. change (-4 <? 0) with true. cbv iota.
  set (n := String.length v).
  replace (Z.min 1 (Z.of_nat (S (n + 4)))) with 1 by lia.
  replace (Z.max 0 (-4 + Z.of_nat (S (n + 4)))) with (Z.of_nat n + 1) by lia.
  destruct (Z.ltb_spec 1 (Z.of_nat n + 1)) as [Hlt|Hge].
  - replace (Z.to_nat (Z.of_nat n + 1 - 1)) with n by lia.
    change (Z.to_nat 1) with 1%nat.
    cbn [String.substring]. subst n. apply substring_prefix.
  - assert (Hn : n = 0%nat) by lia. subst n.
    destruct v; [reflexivity | discriminate].
Qed.

(** Stripping the leading "v" and the trailing ".cdf" gives the version back. *)
Lemma slice_version (v : string) :
  Py.slice 1 (-4) ("v" ++ v ++ ".cdf") = v.
Proof. apply (slice_strip "v"%char v ".cdf"). reflexivity. Qed.

End StringFacts.

(** ** Round trip of the codec *)

Section RoundTrip.

Variables sc instr mode level tstart version : string.
Hypothesis Hsc : valid_segment sc.
Hypothesis Hinstr : valid_segment instr.
Hypothesis Hmode : valid_segment mode.
Hypothesis Hlevel : valid_segment level.
Hypothesis Htstart : valid_segment tstart.
Hypothesis Hversion : valid_segment version.

Lemma valid_last_segment : valid_segment ("v" ++ version ++ ".cdf").
Proof.
  destruct Hversion as [H1 H2].
  split; rewrite !has_char_app; [rewrite H1 | rewrite H2]; reflexivity.
Qed.

Lemma parse_construct_seven (o : string) :
  valid_segment o ->
  parse_file_name1
    (Py.join "_" [sc; instr; mode; level; o; tstart; "v" ++ version ++ ".cdf"])
  = Ok [sc; instr; mode; level; o; tstart; version].
Proof.
  intros Ho. pose proof valid_last_segment as Hl.
  unfold parse_file_name1.
  rewrite basename_no_slash.
  2:{ apply has_char_join; [reflexivity|].
      repeat constructor;
        first [apply Hsc | apply Hinstr | apply Hmode | apply Hlevel
              | apply Ho | apply Htstart | apply Hl]. }
  rewrite !join_cons.
  rewrite !split_app by
    (first [apply Hsc | apply Hinstr | apply Hmode | apply Hlevel
           | apply Ho | apply Htstart]).
  cbn [Py.join]. rewrite (split_no_sep _ _ (proj1 Hl)).
  cbn -[Py.slice String.append Py.index].
  rewrite index_last7. cbn [rbind]. now rewrite slice_version.
Qed.

Lemma parse_construct_six :
  parse_file_name1
    (Py.join "_" [sc; instr; mode; level; tstart; "v" ++ version ++ ".cdf"])
  = Ok [sc; instr; mode; level; ""; tstart; version].
Proof.
  pose proof valid_last_segment as Hl.
  unfold parse_file_name1.
  rewrite basename_no_slash.
  2:{ apply has_char_join; [reflexivity|].
      repeat constructor;
        first [apply Hsc | apply Hinstr | apply Hmode | apply Hlevel
              | apply Htstart | apply Hl]. }
  rewrite !join_cons.
  rewrite !split_app by
    (first [apply Hsc | apply Hinstr | apply Hmode | apply Hlevel
           | apply Htstart]).
  cbn [Py.join]. rewrite (split_no_sep _ _ (proj1 Hl)).
  cbn -[Py.slice String.append Py.index].
  change (Py.insert (-2) "" [sc; instr; mode; level; tstart; "v" ++ version ++ ".cdf"])
    with [sc; instr; mode; level; ""; tstart; "v" ++ version ++ ".cdf"].
  rewrite index_last7. cbn [rbind]. now rewrite slice_version.
Qed.

End RoundTrip.

(** C5. Round trip of the name codec: for scalar components whose segments
    are valid (free of the delimiter and of the path separator), with the
    optional descriptor given or omitted, parsing the constructed file name
    returns the same components, the descriptor being the empty string when
    it was omitted. *)
Theorem parse_construct_roundtrip
    (sc instr mode level tstart version : string) (optdesc : option string) :
  valid_segment sc -> valid_segment instr -> valid_segment mode ->
  valid_segment level -> valid_segment tstart -> valid_segment version ->
  (forall o, optdesc = Some o -> valid_segment o) ->
  parse_file_names
    (construct_filename [sc] [instr] [mode] [level] [tstart] [version]
       (option_map (fun o => [o]) optdesc))
  = Ok [[sc; instr; mode; level; normalized optdesc; tstart; version]].
Proof.
  intros Hsc Hinstr Hmode Hlevel Htstart Hversion Hopt.
  destruct optdesc as [o|]; cbn [option_map construct_filename normalized].
  - change (parse_file_names _) with
      (do y <- parse_file_name1
                 (Py.join "_" [sc; instr; mode; level; o; tstart; "v" ++ version ++ ".cdf"]);
       do ys <- Ok []; Ok (y :: ys)).
    rewrite parse_construct_seven by auto. reflexivity.
  - change (parse_file_names _) with
      (do y <- parse_file_name1
                 (Py.join "_" [sc; instr; mode; level; tstart; "v" ++ version ++ ".cdf"]);
       do ys <- Ok []; Ok (y :: ys)).
    rewrite parse_construct_six by auto. reflexivity.
Qed.

Lemma parse_construct_roundtrip_witness :
  parse_file_names
    (construct_filename ["mms1"] ["fpi"] ["brst"] ["l2"] ["20190101120000"] ["3.3.0"]
       (option_map (fun o => [o]) (Some "dis-moms")))
  = Ok [["mms1"; "fpi"; "brst"; "l2"; normalized (Some "dis-moms");
         "20190101120000"; "3.3.0"]].
Proof.
  apply (parse_construct_roundtrip "mms1" "fpi" "brst" "l2" "20190101120000" "3.3.0"
           (Some "dis-moms")); try (split; reflexivity).
  intros o Ho. injection Ho as <-. split; reflexivity.
Defined.

(** ** The attribute protocol of [MMSDownloader] *)

Section Setattr.

Import MMSDownloader.

(** An attribute without a branch of its own is stored as it is. *)
Lemma setattr_body_plain f name value (self : obj) :
  name ≠ "anc_product" -> name ≠ "data_type" -> name ≠ "end_date" ->
  name ≠ "files" -> name ≠ "level" -> name ≠ "site" -> name ≠ "start_date" ->
  setattr_body f name value self = Ok (<[name := value]> self).
Proof.
  intros. unfold setattr_body.
  repeat (rewrite (proj2 (String.eqb_neq _ _)) by assumption). reflexivity.
Qed.

(** The three unfoldings are the method: [__setattr__] satisfies the
    recursive equation of its body, and the bottom is never reached. *)
Lemma setattr_unfold name value (self : obj) :
  __setattr__ name value self = setattr_body __setattr__ name value self.
Proof.
  unfold __setattr__.
  destruct (String.eqb_spec name "anc_product") as [->|H1]; [reflexivity|].
  destruct (String.eqb_spec name "data_type") as [->|H2]; [reflexivity|].
  destruct (String.eqb_spec name "end_date") as [->|H3]; [reflexivity|].
  destruct (String.eqb_spec name "files") as [->|H4]; [reflexivity|].
  destruct (String.eqb_spec name "level") as [->|H5]; [reflexivity|].
  destruct (String.eqb_spec name "site") as [->|H6]; [reflexivity|].
  destruct (String.eqb_spec name "start_date") as [->|H7]; [reflexivity|].
  now rewrite !setattr_body_plain.
Qed.

Lemma setattr_plain name value (self : obj) :
  is_plain name = true ->
  __setattr__ name value self = Ok (<[name := value]> self).
Proof.
  unfold is_plain, derived_names. cbn [existsb].
  rewrite negb_true_iff, !orb_false_iff.
  intros (H1 & H2 & H3 & H4 & H5 & H6 & H7 & _).
  rewrite setattr_unfold.
  apply setattr_body_plain; now apply String.eqb_neq.
Qed.






Lemma setattr_files_none (self : obj) :
  __setattr__ "files" PNone self = Ok (<["files" := PNone]> self).
Proof. reflexivity. Qed.

Lemma setattr_files (self : obj) (value : pyval) :
  value ≠ PNone ->
  __setattr__ "files" value self
  = Ok (<["files" := value]> (<["version" := PNone]> (<["optdesc" := PNone]>
       (<["level" := PNone]> (<["site" := PStr "public"]> (<["mode" := PNone]>
       (<["instr" := PNone]> (<["sc" := PNone]> self)))))))).
Proof.
  intros H. unfold __setattr__. unfold setattr_body at 1.
  cbn [String.eqb Ascii.eqb Bool.eqb].
  rewrite bool_decide_eq_false_2 by assumption. reflexivity.
Qed.

Lemma setattr_anc_product (self : obj) (value : pyval) :
  __setattr__ "anc_product" value self
  = Ok (<["anc_product" := value]> (<["data_type" := PStr "ancillary"]> self)).
Proof. reflexivity. Qed.

Lemma rbind_step {A B} (r : result A) (a : A) (k : A -> result B) :
  r = Ok a -> rbind r k = k a.
Proof. now intros ->. Qed.

Local Tactic Notation "run" uconstr(lem) := rewrite (rbind_step _ _ _ lem).
Local Tactic Notation "run_plain" constr(name) :=
  rewrite (rbind_step _ _ _ (setattr_plain name _ _ eq_refl)).


End Setattr.

(** C9. Assigning a value other than [None] to [files] succeeds, and right
    after the assignment the attributes [sc], [instr], [mode], [level],
    [optdesc] and [version] are all [None], while [files] holds the value. *)
Theorem files_assignment_clears_selection
    (self : gmap string pyval) (value : pyval) :
  value ≠ PNone ->
  exists self',
    MMSDownloader.__setattr__ "files" value self = Ok self'
    /\ self' !! "sc" = Some PNone
    /\ self' !! "instr" = Some PNone
    /\ self' !! "mode" = Some PNone
    /\ self' !! "level" = Some PNone
    /\ self' !! "optdesc" = Some PNone
    /\ self' !! "version" = Some PNone
    /\ self' !! "files" = Some value.
Proof.
  intros H. eexists. split; [apply setattr_files, H|].
  repeat split; by simplify_map_eq.
Qed.

Lemma files_assignment_clears_selection_witness :
  PList ["mms1_fpi_fast_l2_20190101_v1.0.0.cdf"] ≠ PNone
  /\ exists self',
    MMSDownloader.__setattr__ "files" (PList ["mms1_fpi_fast_l2_20190101_v1.0.0.cdf"])
      (<["sc" := PStr "mms1"]> (<["level" := PStr "l1a"]> (<["site" := PStr "sitl"]> ∅)))
    = Ok self'
    /\ self' !! "sc" = Some PNone
    /\ self' !! "instr" = Some PNone
    /\ self' !! "mode" = Some PNone
    /\ self' !! "level" = Some PNone
    /\ self' !! "optdesc" = Some PNone
    /\ self' !! "version" = Some PNone
    /\ self' !! "files" = Some (PList ["mms1_fpi_fast_l2_20190101_v1.0.0.cdf"]).
Proof.
  split; [discriminate|].
  apply files_assignment_clears_selection. discriminate.
Defined.


(** ** The version filter *)

Section VersionFilter.

Lemma global_mms_parse_filename : global "mms_parse_filename" = Raise NameError.
Proof. reflexivity. Qed.

(** What a call of [filter_version] does, by its arguments. *)
Lemma filter_version_cases files latest version min_version :
  filter_version files latest version min_version =
    if truthy latest then Raise NameError
    else match min_version, version with
         | Some _, _ => Raise UnboundLocalError
         | None, Some _ => Raise AttributeError
         | None, None => Ok []
         end.
Proof.
  unfold filter_version, builtin_min_is_None. rewrite andb_false_r.
  destruct (truthy latest); [reflexivity|].
  destruct min_version as [mv|]; [reflexivity|].
  destruct version; reflexivity.
Qed.

(** String comparison of version components puts "10" below "9". *)
Lemma version_test_strings :
  version_test Py.str_gtb (Py.split "."%char "10.0.0") (Py.split "."%char "9.9.9")
  = Ok false.
Proof. reflexivity. Qed.

End VersionFilter.

(** C1 (the code departs from the specification). With the two candidates of one
    logical file type, versions 9.9.9 and 10.0.0, the default call of
    [filter_version] returns the empty list, for [latest] is never defaulted
    to [True]; the call with [latest=True] raises [NameError] at the unbound
    name [mms_parse_filename]; and the branch behind that name, run with the
    module's own parser, raises [ValueError].  In no case is the file of
    version 10.0.0 returned. *)
Theorem filter_version_latest_defect :
  version_numbers "9.9.9" = Some (9, 9, 9)
  /\ version_numbers "10.0.0" = Some (10, 0, 0)
  /\ version_le (9, 9, 9) (10, 0, 0)
  /\ (forall files, filter_version files None None None = Ok [])
  /\ (forall files version min_version,
        filter_version files (Some true) version min_version = Raise NameError)
  /\ filter_latest parse_file_names [Scenario.f_v9_9_9; Scenario.f_v10_0_0]
     = Raise ValueError.
Proof.
  split; [reflexivity|]. split; [reflexivity|]. split; [left; lia|].
  split; [intros; now rewrite filter_version_cases|].
  split; [intros; now rewrite filter_version_cases|].
  reflexivity.
Qed.

(** C7 (the code departs from the specification). No call of [filter_version]
    raises [ValueError]: the error is built and never raised.  With all
    three modes requested the call raises [NameError], and with [version]
    and [min_version] requested it raises [UnboundLocalError]. *)
Theorem filter_version_conflict_not_raised :
  (forall files latest version min_version,
     filter_version files latest version min_version <> Raise ValueError)
  /\ (forall files,
        filter_version files (Some true) (Some "1.0.0") (Some "2.0.0") = Raise NameError)
  /\ (forall files,
        filter_version files None (Some "1.0.0") (Some "2.0.0") = Raise UnboundLocalError).
Proof.
  split; [|split; intros; now rewrite filter_version_cases].
  intros files latest version min_version. rewrite filter_version_cases.
  destruct (truthy latest); [discriminate|].
  destruct min_version, version; discriminate.
Qed.

(** ** Paths *)

Section Paths.

(** [construct_path] on scalar components: the day directory is there
    exactly for mode "brst". *)
Lemma construct_path_depth (s i m l o t root : string) :
  construct_path [s] [i] [m] [l] [t] (Some [o]) root false
  = [if String.eqb m "brst"
     then Py.path_join root [s; i; m; l; o; Py.slice 0 4 t; Py.slice 4 6 t; Py.slice 6 8 t]
     else Py.path_join root [s; i; m; l; o; Py.slice 0 4 t; Py.slice 4 6 t]]
  /\ construct_path [s] [i] [m] [l] [t] None root false
  = [if String.eqb m "brst"
     then Py.path_join root [s; i; m; l; Py.slice 0 4 t; Py.slice 4 6 t; Py.slice 6 8 t]
     else Py.path_join root [s; i; m; l; Py.slice 0 4 t; Py.slice 4 6 t]].
Proof. split; reflexivity. Qed.

Lemma global_parse_filename : global "parse_filename" = Raise NameError.
Proof. reflexivity. Qed.

End Paths.

(** C8 (the code departs from the specification). [construct_path] gives mode
    "brst" with descriptor "dis-moms" a day directory and mode "fast" none,
    and so does [name2path]; [filename2path] raises [NameError] at the
    unbound name [parse_filename] on every input, and its loop, run on the
    tuples of the module's own parser, tests the level field and leaves the
    day directory out for the "brst" file. *)
Theorem filename2path_day_directory_defect :
  construct_path ["mms1"] ["fpi"] ["brst"] ["l2"] ["20190101"] (Some ["dis-moms"]) "" false
    = ["mms1/fpi/brst/l2/dis-moms/2019/01/01"]
  /\ construct_path ["mms1"] ["fpi"] ["fast"] ["l2"] ["20190101"] (Some ["dis-moms"]) "" false
    = ["mms1/fpi/fast/l2/dis-moms/2019/01"]
  /\ name2path "" Scenario.f_brst
    = Ok ("mms1/fpi/brst/l2/dis-moms/2019/01/01/" ++ Scenario.f_brst)
  /\ (forall fnames root, filename2path fnames root = Raise NameError)
  /\ (do parts <- parse_file_names [Scenario.f_brst];
      filename2path_loop [Scenario.f_brst] "" parts)
    = Ok ["mms1/fpi/brst/l2/dis-moms/2019/01/" ++ Scenario.f_brst].
Proof.
  split; [reflexivity|]. split; [reflexivity|]. split; [reflexivity|].
  split; [|reflexivity].
  intros fnames root. unfold filename2path. now rewrite global_parse_filename.
Qed.

(** ** The time-range filter *)

Section TimeFilterBasics.

Lemma map_result_length {A B} (f : A -> result B) (l : list A) (out : list B) :
  map_result f l = Ok out -> length out = length l.
Proof.
  revert out. induction l as [|x l IH]; intros out; simpl.
  - now intros [= <-].
  - destruct (f x) as [y|]; [|discriminate]. simpl.
    destruct (map_result f l) as [ys|]; [|discriminate]. simpl.
    intros [= <-]. simpl. now rewrite (IH ys).
Qed.

Lemma index_zero_nonempty {A} (l : list A) (x : A) :
  Py.index l 0 = Ok x -> (0 < length l)%nat.
Proof. destruct l; [discriminate | simpl; lia]. Qed.

Lemma insert_length {A} (i : Z) (x : A) (l : list A) :
  length (Py.insert i x l) = S (length l).
Proof.
  unfold Py.insert. rewrite length_app. cbn [length].
  rewrite length_take, length_drop. lia.
Qed.

(** The start-time stage returns at least one file whenever it returns. *)
Lemma start_filter_nonempty fstart files start_date out :
  start_filter fstart files start_date = Ok out -> out <> [].
Proof.
  unfold start_filter.
  generalize (fst <$> List.filter (fun it : Z * Z => start_date <=? it.2)
                        (enumerate fstart)).
  intros idx.
  destruct (Py.index fstart (-1)) as [last|]; [|discriminate]. cbn [rbind].
  assert (Hgather : forall idx' : list Z,
    (0 < length idx')%nat ->
    (if (0 <? length idx')%nat
     then do _ <- gather fstart idx'; gather files idx' else Ok []) = Ok out ->
    out <> []).
  { intros idx' Hlen. rewrite (proj2 (Nat.ltb_lt _ _) Hlen).
    destruct (gather fstart idx'); [|discriminate]. cbn [rbind].
    intros Hout%map_result_length -> . simpl in Hout. lia. }
  destruct ((length idx =? 0)%nat && _).
  - cbn [rbind]. apply Hgather. simpl. lia.
  - destruct (Py.index idx 0) as [i0|] eqn:Hi0; [|discriminate]. cbn [rbind].
    apply index_zero_nonempty in Hi0.
    destruct (Py.index fstart i0) as [t0|]; [|discriminate]. cbn [rbind].
    destruct (negb _ && _); cbn [rbind]; apply Hgather;
      [rewrite insert_length; lia | exact Hi0].
Qed.

End TimeFilterBasics.

(** Replaces every instant given by closed calendar fields by its value. *)
Ltac eval_dates :=
  repeat match goal with
  | |- context [Datetime.of_fields ?y ?m ?d ?hh ?mi ?ss] =>
      let v := eval vm_compute in (Datetime.of_fields y m d hh mi ss) in
      change (Datetime.of_fields y m d hh mi ss) with v
  | H : context [Datetime.of_fields ?y ?m ?d ?hh ?mi ?ss] |- _ =>
      let v := eval vm_compute in (Datetime.of_fields y m d hh mi ss) in
      change (Datetime.of_fields y m d hh mi ss) with v in H
  end.

(** C6 (the code departs from the specification). On the empty file list
    [filter_time] raises [IndexError] for every query range, and on no input
    at all does it return the empty list: where nothing matches, the
    subscripts [fstart[-1]] and [idx[0]] in the operands of [&] raise. *)
Theorem filter_time_empty_raises :
  (forall start_date end_date, filter_time [] start_date end_date = Raise IndexError)
  /\ (forall fnames start_date end_date, filter_time fnames start_date end_date <> Ok [])
  /\ filter_time [Scenario.f_20181231]
       (Datetime.of_fields 2019 1 3 0 0 0) (Datetime.of_fields 2019 1 4 0 0 0)
     = Raise IndexError
  /\ filter_time [Scenario.f_20190105]
       (Datetime.of_fields 2019 1 3 0 0 0) (Datetime.of_fields 2019 1 4 0 0 0)
     = Raise IndexError.
Proof.
  split; [reflexivity|]. split; [|split; vm_compute; reflexivity].
  intros fnames start_date end_date H. unfold filter_time in H.
  destruct (file_starts fnames); [|discriminate]. cbn [rbind] in H.
  destruct (sort_by_start _ _); [|discriminate]. cbn [rbind] in H.
  destruct (end_filter _ _ _); [|discriminate]. cbn [rbind] in H.
  now apply start_filter_nonempty in H.
Qed.

(** C4 (as the code has it). For the query start 2019-01-01T12:00:00 and
    any query end that keeps the three candidates starting 2018-12-31,
    2019-01-01 and 2019-01-02, [filter_time] keeps the two files starting
    2019-01-01 and 2019-01-02: the file before the first one at or after the
    query start, and nothing earlier. *)
Theorem filter_time_scenario (end_date : Datetime.t) :
  Datetime.of_fields 2019 1 2 0 0 0 <= end_date ->
  filter_time [Scenario.f_20181231; Scenario.f_20190101; Scenario.f_20190102]
    (Datetime.of_fields 2019 1 1 12 0 0) end_date
  = Ok [Scenario.f_20190101; Scenario.f_20190102].
Proof.
  intros He. unfold filter_time.
  replace (file_starts _) with
    (Ok [Datetime.of_fields 2018 12 31 0 0 0; Datetime.of_fields 2019 1 1 0 0 0;
         Datetime.of_fields 2019 1 2 0 0 0]) by (vm_compute; reflexivity).
  cbn [rbind].
  replace (sort_by_start _ _) with
    (Ok ([Datetime.of_fields 2018 12 31 0 0 0; Datetime.of_fields 2019 1 1 0 0 0;
          Datetime.of_fields 2019 1 2 0 0 0],
         [Scenario.f_20181231; Scenario.f_20190101; Scenario.f_20190102]))
    by (vm_compute; reflexivity).
  cbn [rbind fst snd]. unfold end_filter.
  assert (H1 : (Datetime.of_fields 2018 12 31 0 0 0 <=? end_date) = true)
    by (apply Z.leb_le; eval_dates; lia).
  assert (H2 : (Datetime.of_fields 2019 1 1 0 0 0 <=? end_date) = true)
    by (apply Z.leb_le; eval_dates; lia).
  assert (H3 : (Datetime.of_fields 2019 1 2 0 0 0 <=? end_date) = true)
    by (apply Z.leb_le; eval_dates; lia).
  cbn [enumerate range length seq fmap list_fmap zip zip_with List.filter fst snd].
  rewrite H1, H2, H3.
  vm_compute. reflexivity.
Qed.

Lemma filter_time_scenario_witness :
  filter_time [Scenario.f_20181231; Scenario.f_20190101; Scenario.f_20190102]
    (Datetime.of_fields 2019 1 1 12 0 0) (Datetime.of_fields 2019 1 3 0 0 0)
  = Ok [Scenario.f_20190101; Scenario.f_20190102].
Proof.
  apply (filter_time_scenario (Datetime.of_fields 2019 1 3 0 0 0)).
  vm_compute. discriminate.
Defined.

(** C4, the scenario as the specification states it fails: on its input
    the file starting 2018-12-31 is not kept. *)
Lemma filter_time_scenario_counterexample :
  filter_time [Scenario.f_20181231; Scenario.f_20190101; Scenario.f_20190102]
    (Datetime.of_fields 2019 1 1 12 0 0) (Datetime.of_fields 2019 1 3 0 0 0)
  <> Ok [Scenario.f_20181231; Scenario.f_20190101; Scenario.f_20190102].
Proof. vm_compute. discriminate. Qed.

(** ** The interval resolver *)

Section Intervals.

Lemma index_nat {A} (l : list A) (i : nat) :
  Py.index l (Z.of_nat i)
  = match l !! i with Some x => Ok x | None => Raise IndexError end.
Proof.
  unfold Py.index.
  destruct (Z.ltb_spec (Z.of_nat i) 0) as [Hneg|_]; [lia|].
  destruct (Z.leb_spec 0 (Z.of_nat i)) as [_|Hneg]; [|lia].
  rewrite Nat2Z.id. cbn [andb].
  destruct (Z.ltb_spec (Z.of_nat i) (Z.of_nat (length l))) as [Hlt|Hge].
  - reflexivity.
  - rewrite (lookup_ge_None_2 l i) by lia. reflexivity.
Qed.

Lemma range_S (n : nat) : range (S n) = (range n ++ [Z.of_nat n])%list.
Proof. unfold range. rewrite seq_S, fmap_app. reflexivity. Qed.

Lemma map_result_lookup {A B} (f : A -> result B) (l : list A) (out : list B)
    (i : nat) (x : A) :
  map_result f l = Ok out -> l !! i = Some x ->
  exists y, f x = Ok y /\ out !! i = Some y.
Proof.
  revert out i. induction l as [|a l IH]; intros out i Hm Hx; [discriminate|].
  simpl in Hm. destruct (f a) as [b|] eqn:Hb; [|discriminate]. simpl in Hm.
  destruct (map_result f l) as [bs|] eqn:Hbs; [|discriminate]. simpl in Hm.
  injection Hm as <-. destruct i as [|i]; simpl in *.
  - injection Hx as <-. eauto.
  - eapply IH; eauto.
Qed.

Lemma ranges_of_length end_date starts :
  length (ranges_of end_date starts) = length starts.
Proof. induction starts as [|s rest IH]; simpl; [reflexivity | now rewrite IH]. Qed.

Lemma ranges_of_lookup end_date starts (i : nat) (s : Datetime.t) :
  starts !! i = Some s ->
  ranges_of end_date starts !! i
  = Some (mkTimeRange s (match starts !! S i with
                         | Some s' => Datetime.sub_seconds s' 1
                         | None => end_date
                         end)).
Proof.
  revert i. induction starts as [|a rest IH]; intros i Hs; [discriminate|].
  destruct i as [|i]; simpl in *.
  - injection Hs as <-. destruct rest; reflexivity.
  - now apply IH.
Qed.

Lemma ranges_of_starts end_date starts :
  tr_start <$> ranges_of end_date starts = starts.
Proof.
  induction starts as [|s rest IH]; [reflexivity|].
  cbn [ranges_of]. rewrite fmap_cons, IH. reflexivity.
Qed.

Lemma built_ranges_length end_date starts :
  length (built_ranges end_date starts) = length starts.
Proof. induction starts as [|s rest IH]; simpl; [reflexivity | now rewrite IH]. Qed.

Lemma built_ranges_lookup end_date starts (i : nat) (s : Datetime.t) :
  starts !! i = Some s ->
  built_ranges end_date starts !! i
  = Some (TimeRange_init s (match built_ranges end_date starts !! S i with
                            | Some r => Datetime.sub_seconds (tr_start r) 1
                            | None => end_date
                            end)).
Proof.
  revert i. induction starts as [|a rest IH]; intros i Hs; [discriminate|].
  destruct i as [|i]; cbn [built_ranges]; simpl in Hs |- *.
  - injection Hs as <-. destruct (built_ranges end_date rest); reflexivity.
  - now apply IH.
Qed.

(** The loop of [intervals], run over the indices below [k] from the top
    down, fills the slots below [k] with the ranges built last file
    first. *)
Lemma intervals_loop_spec end_date parts starts (k : nat)
    (end_var : option Datetime.t) :
  map_result (fun part => do tstart <- Py.index part 5; file_start tstart) parts
    = Ok starts ->
  (k <= length parts)%nat ->
  exists end_var',
    foldl_result (intervals_step parts end_date (length parts))
      ((replicate k None ++ (Some <$> drop k (built_ranges end_date starts)))%list, end_var)
      (reverse (range k))
    = Ok (Some <$> built_ranges end_date starts, end_var').
Proof.
  intros Hstarts. pose proof (map_result_length _ _ _ Hstarts) as Hlen.
  revert end_var. induction k as [|k IH]; intros end_var Hk.
  - exists end_var. reflexivity.
  - rewrite range_S, reverse_snoc. cbn [foldl_result].
    destruct (lookup_lt_is_Some_2 parts k ltac:(lia)) as [part Hpart].
    destruct (map_result_lookup _ _ _ _ _ Hstarts Hpart) as (s & Hs & Hsk).
    unfold intervals_step at 1. cbv beta iota.
    rewrite index_nat, Hpart. cbn [rbind].
    destruct (Py.index part 5) as [tstart|]; [|discriminate]. cbn [rbind] in Hs |- *.
    rewrite Hs. cbn [rbind].
    pose proof (built_ranges_lookup end_date starts k s Hsk) as HR.
    pose proof (built_ranges_length end_date starts) as HRlen.
    set (R := built_ranges end_date starts) in *.
    assert (Hend : exists ev,
      (if Z.of_nat k =? Z.of_nat (length parts) - 1 then Ok (Some end_date)
       else if 0 <=? Z.of_nat k then
         do next <- Py.index (replicate (S k) None ++ (Some <$> drop (S k) R))%list
                      (Z.of_nat k + 1);
         match next with
         | Some r => Ok (Some (Datetime.sub_seconds (tr_start r) 1))
         | None => Raise AttributeError
         end
       else Ok end_var)
      = Ok (Some ev)
      /\ R !! k = Some (TimeRange_init s ev)).
    { destruct (Z.eqb_spec (Z.of_nat k) (Z.of_nat (length parts) - 1)) as [Hlast|Hnl].
      - exists end_date. split; [reflexivity|].
        rewrite HR. rewrite (lookup_ge_None_2 R (S k)) by lia. reflexivity.
      - destruct (Z.leb_spec 0 (Z.of_nat k)) as [_|]; [|lia].
        destruct (lookup_lt_is_Some_2 R (S k) ltac:(lia)) as [r Hr].
        exists (Datetime.sub_seconds (tr_start r) 1). rewrite HR, Hr.
        split; [|reflexivity].
        replace (Z.of_nat k + 1) with (Z.of_nat (S k)) by lia.
        rewrite index_nat.
        rewrite lookup_app_r by (rewrite length_replicate; lia).
        rewrite length_replicate, Nat.sub_diag, list_lookup_fmap, lookup_drop, Nat.add_0_r.
        rewrite Hr. reflexivity. }
    destruct Hend as (ev & -> & HRk). cbn [rbind local].
    rewrite Nat2Z.id.
    replace (<[k:=Some (TimeRange_init s ev)]>
               (replicate (S k) None ++ (Some <$> drop (S k) R))%list)
      with (replicate k None ++ (Some <$> drop k R))%list.
    + apply IH. lia.
    + rewrite (drop_S R _ k HRk), fmap_cons.
      rewrite replicate_S_end, <- app_assoc. cbn [app].
      rewrite insert_app_r_alt by (rewrite length_replicate; lia).
      rewrite length_replicate, Nat.sub_diag. reflexivity.
Qed.

(** [intervals] returns the ranges built last file first. *)
Lemma intervals_spec end_date fnames starts :
  interval_starts fnames = Ok starts ->
  intervals end_date fnames = Ok (Some <$> built_ranges end_date starts).
Proof.
  unfold interval_starts, intervals.
  destruct (parse_file_names fnames) as [parts|] eqn:Hparts; [|discriminate].
  cbn [rbind]. intros Hstarts.
  rewrite <- (map_result_length _ _ _ Hparts).
  destruct (intervals_loop_spec end_date parts starts (length parts) None Hstarts
              (Nat.le_refl _)) as [ev Hloop].
  rewrite drop_ge in Hloop
    by (rewrite built_ranges_length, (map_result_length _ _ _ Hstarts); lia).
  rewrite fmap_nil, app_nil_r in Hloop.
  now rewrite Hloop.
Qed.

End Intervals.

Section IntervalProperties.

Lemma ranges_of_consecutive end_date starts (i : nat) (r r' : TimeRange) :
  ranges_of end_date starts !! i = Some r ->
  ranges_of end_date starts !! S i = Some r' ->
  tr_end r = Datetime.sub_seconds (tr_start r') 1.
Proof.
  intros Hr Hr'.
  destruct (lookup_lt_is_Some_2 starts i) as [s Hs].
  { apply lookup_lt_Some in Hr. now rewrite ranges_of_length in Hr. }
  destruct (lookup_lt_is_Some_2 starts (S i)) as [s' Hs'].
  { apply lookup_lt_Some in Hr'. now rewrite ranges_of_length in Hr'. }
  rewrite (ranges_of_lookup _ _ _ _ Hs), Hs' in Hr.
  rewrite (ranges_of_lookup _ _ _ _ Hs') in Hr'.
  injection Hr as <-. injection Hr' as <-. reflexivity.
Qed.

Lemma ranges_of_last end_date starts (r : TimeRange) :
  last (ranges_of end_date starts) = Some r -> tr_end r = end_date.
Proof.
  rewrite last_lookup, ranges_of_length. intros Hr.
  destruct (lookup_lt_is_Some_2 starts (Nat.pred (length starts))) as [s Hs].
  { apply lookup_lt_Some in Hr. now rewrite ranges_of_length in Hr. }
  rewrite (ranges_of_lookup _ _ _ _ Hs) in Hr.
  rewrite (lookup_ge_None_2 starts (S (Nat.pred (length starts)))) in Hr by lia.
  now injection Hr as <-.
Qed.

(** When consecutive files start at least a second apart and the last one
    starts no later than the query end, no range is given an end before
    its start: the constructor keeps the times as given and the loop
    builds the intervals of the specification's algorithm. *)
Lemma built_ranges_ordered end_date starts :
  (forall (i : nat) a b, starts !! i = Some a -> starts !! S i = Some b ->
                         a + Datetime.usec_per_second <= b) ->
  (forall a, last starts = Some a -> a <= end_date) ->
  built_ranges end_date starts = ranges_of end_date starts.
Proof.
  induction starts as [|s rest IH]; intros Hgap Hlast; [reflexivity|].
  cbn [built_ranges ranges_of]. rewrite IH.
  - f_equal. unfold TimeRange_init. destruct rest as [|s' rest].
    + cbn [ranges_of]. specialize (Hlast s eq_refl).
      destruct (Z.ltb_spec end_date s); [lia | reflexivity].
    + cbn [ranges_of tr_start]. specialize (Hgap 0%nat s s' eq_refl eq_refl).
      destruct (Z.ltb_spec (Datetime.sub_seconds s' 1) s) as [Hlt|_]; [|reflexivity].
      unfold Datetime.sub_seconds in Hlt. lia.
  - intros i a b Ha Hb. exact (Hgap (S i) a b Ha Hb).
  - intros a Ha. apply Hlast. destruct rest; [discriminate | exact Ha].
Qed.

(** The time stamps of file names carry whole seconds. *)
Lemma strptime_whole_second (s : string) (fmt : list Strptime.directive)
    (x : Datetime.t) :
  Strptime.strptime s fmt = Ok x -> exists n, x = n * Datetime.usec_per_second.
Proof.
  unfold Strptime.strptime, Datetime.make, Datetime.of_fields.
  destruct (Strptime.match_format fmt s) as [[vs [|c r]]|]; try discriminate.
  destruct vs as [|y [|m [|d [|hh [|mi [|ss [|? ?]]]]]]]; try discriminate;
    match goal with |- context [if ?c then _ else _] => destruct c end;
    try discriminate; intros [= <-]; eexists; reflexivity.
Qed.

Lemma interval_starts_whole_seconds (fnames : list string) (starts : list Datetime.t) :
  interval_starts fnames = Ok starts ->
  Forall (fun x => exists n, x = n * Datetime.usec_per_second) starts.
Proof.
  unfold interval_starts.
  destruct (parse_file_names fnames) as [parts|]; [|discriminate]. cbn [rbind].
  revert starts. induction parts as [|p parts IH]; intros starts H.
  - injection H as <-. constructor.
  - cbn [map_result] in H.
    destruct (Py.index p 5) as [tstart|]; [|discriminate]. cbn [rbind] in H.
    destruct (file_start tstart) as [x|] eqn:Hx; [|discriminate]. cbn [rbind] in H.
    destruct (map_result _ parts) as [xs|]; [|discriminate]. cbn [rbind] in H.
    injection H as <-. constructor; [|now apply IH].
    unfold file_start in Hx.
    destruct (Py.len tstart =? 8); exact (strptime_whole_second _ _ _ Hx).
Qed.

Lemma Sorted_lt_lookup_S (l : list Z) (i : nat) (a b : Z) :
  Sorted Z.lt l -> l !! i = Some a -> l !! S i = Some b -> a < b.
Proof.
  intros Hs. revert i. induction Hs as [|x l Hs IH Hhd]; intros i Ha Hb; [discriminate|].
  destruct i as [|i]; simpl in *.
  - injection Ha as <-. destruct l as [|y l]; [discriminate|].
    simpl in Hb. injection Hb as <-. now inversion Hhd.
  - eapply IH; eauto.
Qed.

End IntervalProperties.

(** C2, as amended.  For a non-empty list of file names whose time stamps
    parse, in strictly ascending order of start time, and a query end time
    that is not before the start of the last file, [intervals] returns one
    interval per file, starting at the file's start time; every interval
    but the last ends one second before the next one starts, so that
    consecutive intervals are contiguous and do not overlap; and the last
    interval ends at the query end time. *)
Theorem intervals_contiguous (end_date : Datetime.t) (fnames : list string)
    (starts : list Datetime.t) :
  fnames <> [] ->
  interval_starts fnames = Ok starts ->
  Sorted Z.lt starts ->
  (forall a, last starts = Some a -> a <= end_date) ->
  exists trange : list TimeRange,
    intervals end_date fnames = Ok (Some <$> trange)
    /\ length trange = length fnames
    /\ tr_start <$> trange = starts
    /\ (forall (i : nat) (r r' : TimeRange),
          trange !! i = Some r -> trange !! S i = Some r' ->
          tr_end r = Datetime.sub_seconds (tr_start r') 1
          /\ tr_end r < tr_start r'
          /\ tr_start r < tr_start r')
    /\ (exists r, last trange = Some r /\ tr_end r = end_date).
Proof.
  intros Hne Hstarts Hsorted Hend.
  exists (ranges_of end_date starts).
  assert (Hlen : length starts = length fnames).
  { unfold interval_starts in Hstarts.
    destruct (parse_file_names fnames) as [parts|] eqn:Hparts; [|discriminate].
    cbn [rbind] in Hstarts.
    rewrite (map_result_length _ _ _ Hstarts). apply (map_result_length _ _ _ Hparts). }
  assert (Hgap : forall (i : nat) a b, starts !! i = Some a -> starts !! S i = Some b ->
                                       a + Datetime.usec_per_second <= b).
  { intros i a b Ha Hb.
    pose proof (Sorted_lt_lookup_S starts i a b Hsorted Ha Hb) as Hlt.
    pose proof (interval_starts_whole_seconds fnames starts Hstarts) as Hwhole.
    rewrite Forall_lookup in Hwhole.
    destruct (Hwhole _ _ Ha) as [n ->]. destruct (Hwhole _ _ Hb) as [m ->].
    unfold Datetime.usec_per_second in *. lia. }
  split.
  { rewrite <- (built_ranges_ordered end_date starts Hgap Hend).
    now apply intervals_spec. }
  split; [now rewrite ranges_of_length|].
  split; [apply ranges_of_starts|].
  split.
  - intros i r r' Hr Hr'.
    pose proof (ranges_of_consecutive _ _ _ _ _ Hr Hr') as Hnext.
    split; [exact Hnext|]. split.
    + rewrite Hnext. unfold Datetime.sub_seconds, Datetime.usec_per_second. lia.
    + apply (Sorted_lt_lookup_S starts i); [exact Hsorted| |].
      * rewrite <- (ranges_of_starts end_date starts), list_lookup_fmap, Hr. reflexivity.
      * rewrite <- (ranges_of_starts end_date starts), list_lookup_fmap, Hr'. reflexivity.
  - destruct (last (ranges_of end_date starts)) as [r|] eqn:Hlast.
    + exists r. split; [reflexivity|]. exact (ranges_of_last end_date starts r Hlast).
    + rewrite last_None in Hlast.
      pose proof (ranges_of_length end_date starts) as HR.
      rewrite Hlast, Hlen in HR. destruct fnames; [congruence|discriminate].
Qed.

Lemma intervals_contiguous_witness :
  exists trange : list TimeRange,
    intervals (Datetime.of_fields 2019 1 3 0 0 0)
      [Scenario.f_20190101; Scenario.f_20190102] = Ok (Some <$> trange)
    /\ length trange = length [Scenario.f_20190101; Scenario.f_20190102]
    /\ tr_start <$> trange
       = [Datetime.of_fields 2019 1 1 0 0 0; Datetime.of_fields 2019 1 2 0 0 0]
    /\ (forall (i : nat) (r r' : TimeRange),
          trange !! i = Some r -> trange !! S i = Some r' ->
          tr_end r = Datetime.sub_seconds (tr_start r') 1
          /\ tr_end r < tr_start r'
          /\ tr_start r < tr_start r')
    /\ (exists r, last trange = Some r /\ tr_end r = Datetime.of_fields 2019 1 3 0 0 0).
Proof.
  apply (intervals_contiguous (Datetime.of_fields 2019 1 3 0 0 0)
           [Scenario.f_20190101; Scenario.f_20190102]
           [Datetime.of_fields 2019 1 1 0 0 0; Datetime.of_fields 2019 1 2 0 0 0]).
  - discriminate.
  - vm_compute. reflexivity.
  - repeat constructor.
  - intros a [= <-]. vm_compute. discriminate.
Defined.

(** C2, the statement for every sorted list and every query end time
    fails.  Two files of the same start time are in ascending order, and
    the first interval [intervals] returns does not end one second before
    the second one starts: the class turns the range from the start to one
    second earlier around.  And for a query end before the start of the
    only file, the interval ends at the start of the file, not at the
    query end. *)
Lemma intervals_contiguous_counterexample :
  (interval_starts [Scenario.f_v9_9_9; Scenario.f_v10_0_0]
     = Ok [Datetime.of_fields 2019 1 1 0 0 0; Datetime.of_fields 2019 1 1 0 0 0]
   /\ Sorted Z.le [Datetime.of_fields 2019 1 1 0 0 0; Datetime.of_fields 2019 1 1 0 0 0]
   /\ ~ exists trange : list TimeRange,
         intervals (Datetime.of_fields 2019 1 3 0 0 0)
           [Scenario.f_v9_9_9; Scenario.f_v10_0_0] = Ok (Some <$> trange)
         /\ forall (i : nat) (r r' : TimeRange),
              trange !! i = Some r -> trange !! S i = Some r' ->
              tr_end r = Datetime.sub_seconds (tr_start r') 1)
  /\ (interval_starts [Scenario.f_20190102] = Ok [Datetime.of_fields 2019 1 2 0 0 0]
      /\ ~ exists trange : list TimeRange,
            intervals (Datetime.of_fields 2019 1 1 0 0 0) [Scenario.f_20190102]
              = Ok (Some <$> trange)
            /\ exists r, last trange = Some r
                         /\ tr_end r = Datetime.of_fields 2019 1 1 0 0 0).
Proof.
  split.
  - split; [vm_compute; reflexivity|].
    split; [repeat constructor; vm_compute; discriminate|].
    intros (trange & Hrun & Hnext).
    rewrite (intervals_spec _ [Scenario.f_v9_9_9; Scenario.f_v10_0_0]
               [Datetime.of_fields 2019 1 1 0 0 0; Datetime.of_fields 2019 1 1 0 0 0])
      in Hrun by (vm_compute; reflexivity).
    match type of Hrun with
    | Ok ?built = Ok _ => assert (Ht : Some <$> trange = built) by congruence
    end.
    apply (inj (fmap Some)) in Ht. subst trange. clear Hrun.
    specialize (Hnext 0%nat _ _ eq_refl eq_refl).
    vm_compute in Hnext. discriminate.
  - split; [vm_compute; reflexivity|].
    intros (trange & Hrun & r & Hlast & Hr).
    rewrite (intervals_spec _ [Scenario.f_20190102] [Datetime.of_fields 2019 1 2 0 0 0])
      in Hrun by (vm_compute; reflexivity).
    match type of Hrun with
    | Ok ?built = Ok _ => assert (Ht : Some <$> trange = built) by congruence
    end.
    apply (inj (fmap Some)) in Ht. subst trange. clear Hrun.
    injection Hlast as <-. vm_compute in Hr. discriminate.
Qed.

(** The scenario of the specification: two daily files and the query end
    2019-01-03 give the intervals 2019-01-01 to 2019-01-01 23:59:59 and
    2019-01-02 to 2019-01-03. *)
Example intervals_two_days :
  intervals (Datetime.of_fields 2019 1 3 0 0 0)
    [Scenario.f_20190101; Scenario.f_20190102]
  = Ok [Some (mkTimeRange (Datetime.of_fields 2019 1 1 0 0 0)
                          (Datetime.of_fields 2019 1 1 23 59 59));
        Some (mkTimeRange (Datetime.of_fields 2019 1 2 0 0 0)
                          (Datetime.of_fields 2019 1 3 0 0 0))].
Proof. vm_compute. reflexivity. Qed.

(** ** The sort of [filter_time] *)

Section SortRefinement.

Context {A : Type}.

Lemma place_perm (x : Z * A) (l : list (Z * A)) : place x l ≡ₚ x :: l.
Proof.
  induction l as [|y l IH]; simpl; [reflexivity|].
  destruct (x.1 <=? y.1); [reflexivity|].
  rewrite IH. apply Permutation_swap.
Qed.

Lemma stable_sort_perm (l : list (Z * A)) : stable_sort l ≡ₚ l.
Proof.
  induction l as [|x l IH]; simpl; [reflexivity|].
  now rewrite place_perm, IH.
Qed.

Lemma place_sorted (x : Z * A) (l : list (Z * A)) :
  StronglySorted key_le l -> StronglySorted key_le (place x l).
Proof.
  induction 1 as [|y l Hs IH Hy]; simpl.
  - repeat constructor.
  - destruct (Z.leb_spec x.1 y.1) as [Hle|Hgt].
    + constructor; [now constructor|].
      constructor; [exact Hle|].
      eapply Forall_impl; [exact Hy|]. unfold key_le. intros z Hz. lia.
    + constructor; [exact IH|].
      rewrite place_perm. constructor; [unfold key_le; lia | exact Hy].
Qed.

Lemma stable_sort_sorted (l : list (Z * A)) : StronglySorted key_le (stable_sort l).
Proof.
  induction l as [|x l IH]; simpl; [constructor | now apply place_sorted].
Qed.

Lemma filter_sorted (P : Z * A -> bool) (l : list (Z * A)) :
  StronglySorted key_le l -> StronglySorted key_le (List.filter P l).
Proof.
  induction 1 as [|y l Hs IH Hy]; simpl; [constructor|].
  destruct (P y); [|exact IH].
  constructor; [exact IH|].
  apply Forall_forall. intros z Hz%list_elem_of_In%filter_In.
  rewrite Forall_forall in Hy. apply Hy, list_elem_of_In, Hz.
Qed.

End SortRefinement.

Section SortIndices.

Context {A B : Type} (R : Z * A -> Z * B -> Prop).
Hypothesis R_key : forall a b, R a b -> a.1 = b.1.

Lemma place_related x y (l1 : list (Z * A)) (l2 : list (Z * B)) :
  R x y -> Forall2 R l1 l2 -> Forall2 R (place x l1) (place y l2).
Proof.
  intros Hxy. induction 1 as [|a b l1 l2 Hab Hl IH]; simpl.
  - repeat constructor. exact Hxy.
  - rewrite (R_key _ _ Hxy), (R_key _ _ Hab).
    destruct (y.1 <=? b.1); repeat constructor; auto.
Qed.

Lemma stable_sort_related (l1 : list (Z * A)) (l2 : list (Z * B)) :
  Forall2 R l1 l2 -> Forall2 R (stable_sort l1) (stable_sort l2).
Proof.
  induction 1 as [|a b l1 l2 Hab Hl IH]; simpl; [constructor|].
  now apply place_related.
Qed.

End SortIndices.

Section Gather.

Context {A : Type}.

Lemma zip_range_related (ks : list Z) (l : list A) :
  length ks = length l ->
  Forall2 (at_index l) (zip ks (range (length l))) (zip ks l).
Proof.
  intros Hlen. apply Forall2_same_length_lookup_2.
  - rewrite !length_zip. unfold range. rewrite length_fmap, length_seq. lia.
  - intros i [k j] [k' x] H1 H2.
    apply lookup_zip_Some in H1 as [Hk Hj]. apply lookup_zip_Some in H2 as [Hk' Hx].
    unfold range in Hj. rewrite list_lookup_fmap in Hj.
    destruct (seq 0 (length l) !! i) as [n|] eqn:Hn; [|discriminate].
    apply lookup_seq in Hn as [-> _]. simpl in Hj. injection Hj as <-.
    unfold at_index. simpl. rewrite Nat2Z.id.
    split; [congruence|]. split; [lia | exact Hx].
Qed.

Lemma gather_related (l : list A) (qs : list (Z * Z)) (ps : list (Z * A)) :
  Forall2 (at_index l) qs ps -> gather l qs.*2 = Ok ps.*2.
Proof.
  unfold gather. induction 1 as [|q p qs ps (_ & Hq & Hp) Hl IH]; [reflexivity|].
  rewrite !fmap_cons. cbn [map_result].
  rewrite <- (Z2Nat.id q.2 Hq), index_nat, Hp. cbn [rbind].
  rewrite IH. reflexivity.
Qed.

Lemma related_keys (l : list A) (qs : list (Z * Z)) (ps : list (Z * A)) :
  Forall2 (at_index l) qs ps -> qs.*1 = ps.*1.
Proof.
  induction 1 as [|q p qs ps (Hk & _) Hl IH]; [reflexivity|].
  rewrite !fmap_cons. congruence.
Qed.

Lemma gather_offset (pre l : list A) :
  gather (pre ++ l) (Z.of_nat <$> seq (length pre) (length l)) = Ok l.
Proof.
  unfold gather. revert pre. induction l as [|x l IH]; intros pre; [reflexivity|].
  cbn [length seq]. rewrite fmap_cons. cbn [map_result].
  rewrite index_nat, lookup_app_r, Nat.sub_diag by lia. cbn [lookup list_lookup rbind].
  specialize (IH (pre ++ [x])%list).
  rewrite <- app_assoc, length_app in IH. cbn [app length] in IH.
  rewrite Nat.add_1_r in IH. rewrite IH. reflexivity.
Qed.

Lemma gather_range (l : list A) : gather l (range (length l)) = Ok l.
Proof. apply (gather_offset [] l). Qed.

End Gather.

(** Lines 1212-1215 reorder the two lists as a stable sort of the pairs of
    start time and file name does. *)
Lemma sort_by_start_spec (fstart : list Datetime.t) (files : list string) :
  length fstart = length files ->
  sort_by_start fstart files
  = Ok ((stable_sort (zip fstart files)).*1, (stable_sort (zip fstart files)).*2).
Proof.
  intros Hlen. unfold sort_by_start, sorted.
  change (map_result (fun k => Py.index fstart k) (range (length fstart)))
    with (gather fstart (range (length fstart))).
  rewrite gather_range. cbn [rbind].
  pose proof (stable_sort_related (at_index files) (fun a b H => proj1 H) _ _
                (zip_range_related fstart files Hlen)) as Hfiles.
  pose proof (stable_sort_related (at_index fstart) (fun a b H => proj1 H) _ _
                (zip_range_related fstart fstart eq_refl)) as Hstart.
  rewrite <- Hlen in Hfiles.
  rewrite (gather_related _ _ _ Hstart). cbn [rbind].
  rewrite (gather_related _ _ _ Hfiles). cbn [rbind].
  f_equal. f_equal.
  refine (eq_trans _ (eq_trans (eq_sym (related_keys _ _ _ Hstart))
                                 (related_keys _ _ _ Hfiles))).
  match goal with
  | |- ?S.*2 = _ =>
      assert (Hdiag : Forall (fun p : Z * Z => p.1 = p.2) S);
        [|revert Hdiag; generalize S; clear]
  end.
  - rewrite stable_sort_perm. clear. induction fstart; constructor; auto.
  - induction 1 as [|p l Hp _ IH]; [reflexivity|].
    rewrite !fmap_cons. f_equal; [exact (eq_sym Hp) | exact IH].
Qed.

(** ** The two filter stages *)

Section FilterStages.

Context {A : Type}.

(** Gathering at the positions a test on the keys selects gives the items
    whose keys pass the test. *)
Lemma gather_filter_offset (P : Z -> bool) (pre l : list A) (ks : list Z) :
  length ks = length l ->
  gather (pre ++ l)
    (List.filter (fun it : Z * Z => P it.2)
       (zip (Z.of_nat <$> seq (length pre) (length ks)) ks)).*1
  = Ok (List.filter (fun p : Z * A => P p.1) (zip ks l)).*2.
Proof.
  revert pre l. induction ks as [|k ks IH]; intros pre l Hlen.
  - reflexivity.
  - destruct l as [|x l]; [discriminate|]. injection Hlen as Hlen.
    specialize (IH (pre ++ [x])%list l Hlen).
    rewrite <- app_assoc, length_app in IH. cbn [app length] in IH.
    rewrite Nat.add_1_r in IH.
    cbn [length seq]. rewrite fmap_cons. cbn [zip zip_with List.filter fst snd].
    destruct (P k).
    + rewrite !fmap_cons. unfold gather in *. cbn [map_result fst snd].
      rewrite index_nat, lookup_app_r, Nat.sub_diag by lia.
      cbn [lookup list_lookup rbind]. rewrite IH. reflexivity.
    + exact IH.
Qed.

Lemma gather_filter (P : Z -> bool) (l : list A) (ks : list Z) :
  length ks = length l ->
  gather l (List.filter (fun it : Z * Z => P it.2) (enumerate ks)).*1
  = Ok (List.filter (fun p : Z * A => P p.1) (zip ks l)).*2.
Proof. intros Hlen. apply (gather_filter_offset P [] l ks Hlen). Qed.

End FilterStages.

Lemma filter_zip_diag {A} (P : Z -> bool) (K : list (Z * A)) :
  (List.filter (fun p : Z * Z => P p.1) (zip K.*1 K.*1)).*2
  = (List.filter (fun p : Z * A => P p.1) K).*1.
Proof.
  induction K as [|p K IH]; [reflexivity|].
  rewrite !fmap_cons. cbn [zip zip_with List.filter fst snd].
  destruct (P p.1); [rewrite !fmap_cons; cbn [fst snd]; now rewrite IH | exact IH].
Qed.

Lemma gather_filter_keys {A} (P : Z -> bool) (K : list (Z * A)) :
  gather K.*1 (List.filter (fun it : Z * Z => P it.2) (enumerate K.*1)).*1
  = Ok (List.filter (fun p : Z * A => P p.1) K).*1.
Proof. rewrite (gather_filter P K.*1 K.*1 eq_refl). now rewrite filter_zip_diag. Qed.

Lemma gather_filter_items {A} (P : Z -> bool) (K : list (Z * A)) :
  gather K.*2 (List.filter (fun it : Z * Z => P it.2) (enumerate K.*1)).*1
  = Ok (List.filter (fun p : Z * A => P p.1) K).*2.
Proof.
  rewrite (gather_filter P K.*2 K.*1) by (now rewrite !length_fmap).
  now rewrite zip_fst_snd.
Qed.

(** Positions whose keys fail the test are skipped. *)
Lemma filter_enumerate_skip (P : Z -> bool) (o : nat) (ks1 ks2 : list Z) :
  Forall (fun k => P k = false) ks1 ->
  List.filter (fun it : Z * Z => P it.2)
    (zip (Z.of_nat <$> seq o (length (ks1 ++ ks2))) (ks1 ++ ks2))
  = List.filter (fun it : Z * Z => P it.2)
      (zip (Z.of_nat <$> seq (o + length ks1) (length ks2)) ks2).
Proof.
  intros H. revert o. induction H as [|k ks1 Hk _ IH]; intros o.
  - cbn [app length]. now rewrite Nat.add_0_r.
  - cbn [app length seq]. rewrite fmap_cons. cbn [zip zip_with List.filter snd].
    rewrite Hk, IH. now rewrite Nat.add_succ_comm.
Qed.

Lemma end_filter_spec (K : list (Z * string)) (end_date : Z) :
  end_filter K.*1 K.*2 end_date
  = Ok ((List.filter (fun p => p.1 <=? end_date) K).*1,
        (List.filter (fun p => p.1 <=? end_date) K).*2).
Proof.
  unfold end_filter.
  pose proof (gather_filter_keys (fun t => t <=? end_date) K) as Hk.
  pose proof (gather_filter_items (fun t => t <=? end_date) K) as Hi.
  destruct ((List.filter (fun it : Z * Z => it.2 <=? end_date) (enumerate K.*1)).*1)
    as [|i idx].
  - cbn in Hk, Hi. injection Hk as <-. injection Hi as <-. reflexivity.
  - cbn [length Nat.ltb Nat.leb]. rewrite Hk. cbn [rbind]. rewrite Hi. reflexivity.
Qed.

Section StartFilter.

Local Open Scope list_scope.

Lemma index_last_nonempty {A} (l : list A) :
  l <> [] -> exists x, Py.index l (-1) = Ok x.
Proof.
  intros Hne. unfold Py.index. change (-1 <? 0) with true. cbv iota.
  assert (Hlen : (0 < length l)%nat) by (destruct l; [congruence | simpl; lia]).
  destruct (Z.leb_spec 0 (-1 + Z.of_nat (length l))) as [_|]; [|lia].
  destruct (Z.ltb_spec (-1 + Z.of_nat (length l)) (Z.of_nat (length l))) as [_|]; [|lia].
  cbn [andb].
  destruct (lookup_lt_is_Some_2 l (Z.to_nat (-1 + Z.of_nat (length l))) ltac:(lia))
    as [x ->].
  eauto.
Qed.

Lemma gather_cons {A} (l : list A) (i : Z) (idx : list Z) :
  gather l (i :: idx) = (do x <- Py.index l i; do xs <- gather l idx; Ok (x :: xs)).
Proof. reflexivity. Qed.

Lemma insert_front {A} (x : A) (l : list A) : Py.insert 0 x l = x :: l.
Proof.
  unfold Py.insert, Py.clamp. change (0 <? 0) with false. cbv iota.
  replace (Z.min 0 (Z.of_nat (length l))) with 0 by lia. reflexivity.
Qed.

Lemma filter_all {A} (P : A -> bool) (l : list A) :
  Forall (fun x => P x = true) l -> List.filter P l = l.
Proof. induction 1 as [|x l Hx _ IH]; simpl; [reflexivity | now rewrite Hx, IH]. Qed.

Lemma filter_none {A} (P : A -> bool) (l : list A) :
  Forall (fun x => P x = false) l -> List.filter P l = [].
Proof. induction 1 as [|x l Hx _ IH]; simpl; [reflexivity | now rewrite Hx]. Qed.

(** The start-time stage on candidates split at the first one that starts
    at or after [start_date]. *)
Lemma start_filter_spec (pre rest : list (Z * string)) (t0 : Z) (f0 : string)
    (start_date : Z) :
  Forall (fun p => p.1 < start_date) pre ->
  start_date <= t0 ->
  start_filter (pre ++ (t0, f0) :: rest).*1 (pre ++ (t0, f0) :: rest).*2 start_date
  = Ok (((if t0 =? start_date then [] else option_list (last pre))
         ++ List.filter (fun p => start_date <=? p.1) ((t0, f0) :: rest))%list).*2.
Proof.
  intros Hpre Ht0. set (K := (pre ++ (t0, f0) :: rest)%list).
  set (P := fun t : Z => start_date <=? t).
  assert (HP0 : P t0 = true) by (apply Z.leb_le; exact Ht0).
  assert (Hskip : Forall (fun k => P k = false) pre.*1).
  { apply Forall_fmap. eapply Forall_impl; [exact Hpre|].
    intros p Hp. apply Z.leb_gt. exact Hp. }
  assert (Hfilter : List.filter (fun p : Z * string => P p.1) K
                    = List.filter (fun p : Z * string => P p.1) ((t0, f0) :: rest)).
  { unfold K. rewrite List.filter_app, filter_none; [reflexivity|].
    eapply Forall_impl; [exact Hpre|]. intros p Hp. apply Z.leb_gt. exact Hp. }
  pose proof (gather_filter_keys P K) as Hgk.
  pose proof (gather_filter_items P K) as Hgi.
  rewrite Hfilter in Hgk, Hgi.
  assert (Hidx : exists idx',
    (List.filter (fun it : Z * Z => P it.2) (enumerate K.*1)).*1
    = Z.of_nat (length pre) :: idx').
  { unfold enumerate, range, K. rewrite fmap_app.
    rewrite (filter_enumerate_skip P 0 _ _ Hskip).
    rewrite fmap_cons. cbn [length seq fmap]. rewrite fmap_cons.
    cbn [zip zip_with List.filter snd fst]. rewrite HP0, fmap_cons.
    rewrite length_fmap. cbn [fst]. eauto. }
  destruct Hidx as [idx' Hidx].
  unfold start_filter. subst P. cbv beta in *. rewrite Hidx in Hgk, Hgi |- *.
  destruct (index_last_nonempty K.*1) as [tlast ->].
  { unfold K. rewrite fmap_app. destruct pre; discriminate. }
  cbn [rbind length Nat.eqb andb negb].
  change (Py.index (Z.of_nat (length pre) :: idx') 0) with (Ok (Z.of_nat (length pre)) : result Z).
  cbn [rbind].
  assert (Hi0 : Py.index K.*1 (Z.of_nat (length pre)) = Ok t0).
  { rewrite index_nat. unfold K. rewrite fmap_app, lookup_app_r by (rewrite length_fmap; lia).
    rewrite length_fmap, Nat.sub_diag. reflexivity. }
  rewrite Hi0. cbn [rbind].
  assert (Hprev : forall pre0 p0, pre = pre0 ++ [p0] ->
            Py.index K.*1 (Z.of_nat (length pre0)) = Ok p0.1
            /\ Py.index K.*2 (Z.of_nat (length pre0)) = Ok p0.2).
  { intros pre0 p0 ->. rewrite !index_nat. unfold K.
    rewrite <- !app_assoc, !fmap_app.
    split; (rewrite lookup_app_r by (rewrite length_fmap; lia));
      rewrite length_fmap, Nat.sub_diag; reflexivity. }
  clearbody K.
  destruct (Z.eqb_spec t0 start_date) as [Heq|Hneq].
  - rewrite andb_false_r. cbn [rbind length Nat.ltb Nat.leb app].
    rewrite Hgk. cbn [rbind]. exact Hgi.
  - rewrite andb_true_r.
    destruct pre as [|p0 pre0 _] using rev_ind.
    + cbn [length last] in *. change (Z.of_nat 0) with 0 in *.
      cbn [Z.eqb negb option_list app rbind length Nat.ltb Nat.leb].
      rewrite Hgk. cbn [rbind]. exact Hgi.
    + destruct (Hprev pre0 p0 eq_refl) as [Hk Hf].
      rewrite last_snoc. cbn [option_list].
      rewrite length_app in *. cbn [length] in *.
      destruct (Z.eqb_spec (Z.of_nat (length pre0 + 1)) 0) as [|_]; [lia|].
      cbn [negb rbind]. rewrite insert_front. cbn [length Nat.ltb Nat.leb].
      replace (Z.of_nat (length pre0 + 1) - 1) with (Z.of_nat (length pre0)) by lia.
      rewrite (gather_cons K.*1), (gather_cons K.*2).
      rewrite Hk, Hf. cbn [rbind]. rewrite Hgk, Hgi. reflexivity.
Qed.

End StartFilter.

Section Predecessor.

Local Open Scope list_scope.

Lemma sorted_split {A} (s : Z) (K : list (Z * A)) :
  StronglySorted key_le K ->
  exists pre post,
    K = pre ++ post
    /\ Forall (fun p => p.1 < s) pre
    /\ Forall (fun p => s <= p.1) post.
Proof.
  induction 1 as [|x K Hs IH Hx].
  - exists [], []. repeat split; constructor.
  - destruct (Z.lt_ge_cases x.1 s) as [Hlt|Hge].
    + destruct IH as (pre & post & -> & Hpre & Hpost).
      exists (x :: pre), post. repeat split; [constructor; assumption | assumption].
    + exists [], (x :: K). repeat split; [constructor|].
      constructor; [exact Hge|].
      eapply Forall_impl; [exact Hx|]. unfold key_le. intros y Hy. lia.
Qed.

Lemma sorted_app_r {A} (l1 l2 : list (Z * A)) :
  StronglySorted key_le (l1 ++ l2) -> StronglySorted key_le l2.
Proof.
  induction l1 as [|x l1 IH]; [trivial|].
  intros H. apply StronglySorted_inv in H as [H _]. now apply IH.
Qed.

Lemma file_starts_length fnames starts :
  file_starts fnames = Ok starts -> length starts = length fnames.
Proof.
  unfold file_starts.
  destruct (parse_file_names fnames) as [parts|] eqn:Hparts; [|discriminate].
  cbn [rbind]. intros Hs.
  rewrite (map_result_length _ _ _ Hs). exact (map_result_length _ _ _ Hparts).
Qed.

Lemma candidates_elem (starts : list Z) (fnames : list string) (e : Z) (p : Z * string) :
  p ∈ candidates starts fnames e <-> p ∈ zip starts fnames /\ p.1 <= e.
Proof.
  unfold candidates.
  rewrite list_elem_of_In, filter_In, <- list_elem_of_In, stable_sort_perm.
  now rewrite Z.leb_le.
Qed.

Lemma zip_key_elem (starts : list Z) (fnames : list string) (t : Z) :
  length starts = length fnames ->
  t ∈ starts <-> exists f, (t, f) ∈ zip starts fnames.
Proof.
  intros Hlen. split.
  - intros [i Hi]%list_elem_of_lookup.
    destruct (lookup_lt_is_Some_2 fnames i) as [f Hf].
    { rewrite <- Hlen. eapply lookup_lt_Some, Hi. }
    exists f. apply list_elem_of_lookup. exists i. now apply lookup_zip_Some.
  - intros [f [i Hi]%list_elem_of_lookup]. apply lookup_zip_Some in Hi as [Hi _].
    apply list_elem_of_lookup. eauto.
Qed.

Lemma starts_exactly_spec (starts : list Z) (s : Z) :
  starts_exactly starts s = true <-> s ∈ starts.
Proof.
  unfold starts_exactly. rewrite existsb_exists. split.
  - intros (t & Ht & ->%Z.eqb_eq). now apply list_elem_of_In.
  - intros Hs. exists s. split; [now apply list_elem_of_In | apply Z.eqb_refl].
Qed.

End Predecessor.

(** C3 (as the code has it). When some file starts at or after [start_date]
    and not after [end_date], [filter_time] returns, in ascending order of
    start time, the files that start at or after [start_date] (and not
    after [end_date]), preceded by the single file that comes immediately
    before the first of them in that order; that predecessor is left out
    when some file starts exactly at [start_date] (and there is none to add
    when no file starts before [start_date]). *)
Theorem filter_time_predecessor (fnames : list string) (start_date end_date : Datetime.t)
    (starts : list Datetime.t) :
  file_starts fnames = Ok starts ->
  (exists t, t ∈ starts /\ start_date <= t /\ t <= end_date) ->
  exists pre post : list (Datetime.t * string),
    candidates starts fnames end_date = (pre ++ post)%list
    /\ StronglySorted key_le (pre ++ post)%list
    /\ Forall (fun p => p.1 < start_date) pre
    /\ Forall (fun p => start_date <= p.1) post
    /\ post <> []
    /\ filter_time fnames start_date end_date
       = Ok ((if starts_exactly starts start_date then []
              else option_list (last pre)) ++ post)%list.*2.
Proof.
  intros Hstarts (t & Ht & Hst & Hte).
  pose proof (file_starts_length _ _ Hstarts) as Hlen.
  assert (Hsorted : StronglySorted key_le (candidates starts fnames end_date))
    by apply filter_sorted, stable_sort_sorted.
  destruct (sorted_split start_date _ Hsorted) as (pre & post & HK & Hpre & Hpost).
  assert (Hin_post : forall p, p ∈ candidates starts fnames end_date ->
                               start_date <= p.1 -> p ∈ post).
  { intros p Hp Hge. rewrite HK in Hp. apply elem_of_app in Hp as [Hp|Hp]; [|exact Hp].
    rewrite Forall_forall in Hpre. specialize (Hpre p Hp). lia. }
  destruct post as [|[t0 f0] rest].
  { apply (zip_key_elem _ _ _ Hlen) in Ht as [f Hf].
    specialize (Hin_post (t, f)). rewrite candidates_elem in Hin_post.
    specialize (Hin_post (conj Hf Hte) Hst). inversion Hin_post. }
  exists pre, ((t0, f0) :: rest).
  split; [exact HK|]. split; [now rewrite <- HK|].
  split; [exact Hpre|]. split; [exact Hpost|]. split; [discriminate|].
  unfold filter_time. rewrite Hstarts. cbn [rbind].
  rewrite (sort_by_start_spec _ _ Hlen). cbn [rbind fst snd].
  rewrite end_filter_spec. cbn [rbind fst snd].
  fold (candidates starts fnames end_date). rewrite HK.
  pose proof (Forall_inv Hpost) as Ht0. cbn [fst] in Ht0.
  rewrite (start_filter_spec pre rest t0 f0 start_date Hpre Ht0).
  rewrite (filter_all (fun p : Z * string => start_date <=? p.1) ((t0, f0) :: rest)).
  2:{ eapply Forall_impl; [exact Hpost|]. intros p Hp. now apply Z.leb_le. }
  assert (Hexact : (t0 =? start_date) = starts_exactly starts start_date).
  { destruct (starts_exactly starts start_date) eqn:Hex.
    - apply Z.eqb_eq. apply starts_exactly_spec in Hex.
      apply (zip_key_elem _ _ _ Hlen) in Hex as [f Hf].
      assert (Hp : (start_date, f) ∈ (t0, f0) :: rest).
      { apply Hin_post; [|simpl; lia]. apply candidates_elem. simpl. split; [exact Hf | lia]. }
      rewrite HK in Hsorted. apply sorted_app_r in Hsorted.
      apply StronglySorted_inv in Hsorted as [_ Hhd].
      apply elem_of_cons in Hp as [Hp|Hp].
      + now injection Hp.
      + rewrite Forall_forall in Hhd. specialize (Hhd _ Hp).
        unfold key_le in Hhd. simpl in Hhd. lia.
    - apply Z.eqb_neq. intros ->.
      assert (Hin : (start_date, f0) ∈ candidates starts fnames end_date).
      { rewrite HK. apply elem_of_app. right. left. }
      apply candidates_elem in Hin as [Hin _].
      assert (Hs : start_date ∈ starts) by (apply (zip_key_elem _ _ _ Hlen); eauto).
      apply starts_exactly_spec in Hs. congruence. }
  rewrite Hexact. reflexivity.
Qed.

Lemma filter_time_predecessor_witness :
  exists pre post : list (Datetime.t * string),
    candidates [Datetime.of_fields 2018 12 31 0 0 0; Datetime.of_fields 2019 1 1 0 0 0;
                Datetime.of_fields 2019 1 2 0 0 0]
      [Scenario.f_20181231; Scenario.f_20190101; Scenario.f_20190102]
      (Datetime.of_fields 2019 1 3 0 0 0) = (pre ++ post)%list
    /\ StronglySorted key_le (pre ++ post)%list
    /\ Forall (fun p => p.1 < Datetime.of_fields 2019 1 1 12 0 0) pre
    /\ Forall (fun p => Datetime.of_fields 2019 1 1 12 0 0 <= p.1) post
    /\ post <> []
    /\ filter_time [Scenario.f_20181231; Scenario.f_20190101; Scenario.f_20190102]
         (Datetime.of_fields 2019 1 1 12 0 0) (Datetime.of_fields 2019 1 3 0 0 0)
       = Ok ((if starts_exactly
                   [Datetime.of_fields 2018 12 31 0 0 0; Datetime.of_fields 2019 1 1 0 0 0;
                    Datetime.of_fields 2019 1 2 0 0 0]
                   (Datetime.of_fields 2019 1 1 12 0 0)
              then [] else option_list (last pre)) ++ post)%list.*2.
Proof.
  apply filter_time_predecessor.
  - vm_compute. reflexivity.
  - exists (Datetime.of_fields 2019 1 2 0 0 0).
    split; [right; right; left|]. split; vm_compute; discriminate.
Defined.

(** C3, the statement without the bound by [end_date] fails: a file starts
    after [start_date], the file before it starts before [start_date], no
    file starts exactly at [start_date], and yet [filter_time] does not
    return a list with that predecessor, for the later file starts after
    [end_date]. *)
Lemma filter_time_predecessor_counterexample :
  file_starts [Scenario.f_20181231; Scenario.f_20190105]
    = Ok [Datetime.of_fields 2018 12 31 0 0 0; Datetime.of_fields 2019 1 5 0 0 0]
  /\ Datetime.of_fields 2018 12 31 0 0 0 < Datetime.of_fields 2019 1 3 0 0 0
  /\ Datetime.of_fields 2019 1 3 0 0 0 <= Datetime.of_fields 2019 1 5 0 0 0
  /\ starts_exactly [Datetime.of_fields 2018 12 31 0 0 0; Datetime.of_fields 2019 1 5 0 0 0]
       (Datetime.of_fields 2019 1 3 0 0 0) = false
  /\ ~ exists out,
         filter_time [Scenario.f_20181231; Scenario.f_20190105]
           (Datetime.of_fields 2019 1 3 0 0 0) (Datetime.of_fields 2019 1 4 0 0 0) = Ok out
         /\ Scenario.f_20181231 ∈ out.
Proof.
  split; [vm_compute; reflexivity|]. split; [vm_compute; reflexivity|].
  split; [vm_compute; discriminate|]. split; [vm_compute; reflexivity|].
  intros (out & Hout & _). vm_compute in Hout. discriminate.
Qed.

(** * Further properties *)

(** ** The name codec *)

Section CodecFacts.

Lemma split_nonempty sep (s : string) : Py.split sep s <> [].
Proof.
  induction s as [|c s IH]; simpl; [discriminate|].
  destruct (Ascii.eqb c sep); [discriminate|].
  destruct (Py.split sep s); [congruence | discriminate].
Qed.

(** Splitting distributes over a separator. *)
Lemma split_sep_app sep (a b : string) :
  Py.split sep (a ++ String sep b) = (Py.split sep a ++ Py.split sep b)%list.
Proof.
  induction a as [|c a IH]; simpl.
  - now rewrite Ascii.eqb_refl.
  - destruct (Ascii.eqb c sep); [now rewrite IH|].
    rewrite IH. destruct (Py.split sep a) as [|w ws] eqn:Hs; [|reflexivity].
    now apply split_nonempty in Hs.
Qed.

Lemma last_app_single {A} (l : list A) (x d : A) : List.last (l ++ [x])%list d = x.
Proof. apply List.last_last. Qed.

Lemma basename_dir (dir f : string) :
  Py.has_char "/"%char f = false -> Py.basename (dir ++ String "/"%char f) = f.
Proof.
  intros Hf. unfold Py.basename.
  rewrite split_sep_app, (split_no_sep _ _ Hf). apply last_app_single.
Qed.

Lemma removelast_snoc_length {A} (x : A) (l : list A) :
  l <> [] -> length (removelast l ++ [x])%list = length l.
Proof.
  induction l as [|a l IH]; [congruence|]. intros _.
  destruct l as [|b l]; [reflexivity|].
  change (removelast (a :: b :: l)) with (a :: removelast (b :: l)).
  cbn [app length]. rewrite IH by discriminate. reflexivity.
Qed.

Lemma set_last_length {A} (x : A) (l out : list A) :
  Py.set_last x l = Ok out -> length out = length l.
Proof.
  destruct l as [|a l]; [discriminate|]. unfold Py.set_last. intros [= <-].
  exact (removelast_snoc_length x (a :: l) ltac:(discriminate)).
Qed.

Lemma parse_file_name1_total (fname : string) :
  exists parts, parse_file_name1 fname = Ok parts /\ length parts = arity fname.
Proof.
  unfold parse_file_name1, arity.
  set (parts := Py.split "_"%char (Py.basename fname)).
  assert (Hne : parts <> []) by apply split_nonempty.
  set (parts' := if (length parts =? 6)%nat then Py.insert (-2) "" parts else parts).
  assert (Hlen : length parts' = if (length parts =? 6)%nat then 7%nat else length parts).
  { unfold parts'. destruct (length parts =? 6)%nat eqn:H6; [|reflexivity].
    apply Nat.eqb_eq in H6. rewrite insert_length, H6. reflexivity. }
  assert (Hne' : parts' <> []).
  { intros H. rewrite H in Hlen. destruct (length parts =? 6)%nat; [discriminate|].
    destruct parts; [congruence | discriminate]. }
  destruct (index_last_nonempty parts' Hne') as [last_seg ->]. cbn [rbind].
  destruct parts' as [|p ps] eqn:Hp; [congruence|].
  eexists. split; [reflexivity|].
  rewrite <- Hlen. eapply set_last_length. reflexivity.
Qed.

End CodecFacts.

Section CodecLists.

Lemma join_cons_sep (c : ascii) (x y : string) (l : list string) :
  Py.join (String c "") (x :: y :: l) = x ++ String c (Py.join (String c "") (y :: l)).
Proof. reflexivity. Qed.

(** Splitting a joined list of separator-free segments gives it back. *)
Lemma split_join (c : ascii) (l : list string) :
  Forall (fun s => Py.has_char c s = false) l -> l <> [] ->
  Py.split c (Py.join (String c "") l) = l.
Proof.
  induction 1 as [|x l Hx Hl IH]; [congruence|]. intros _.
  destruct l as [|y l]; [now apply split_no_sep|].
  rewrite join_cons_sep, split_app by exact Hx.
  now rewrite IH.
Qed.

Lemma has_char_join_other (c d : ascii) (l : list string) :
  Ascii.eqb d c = false ->
  Forall (fun s => Py.has_char c s = false) l ->
  Py.has_char c (Py.join (String d "") l) = false.
Proof.
  intros Hc. induction 1 as [|x l Hx Hl IH]; [reflexivity|].
  destruct l as [|y l]; [exact Hx|].
  rewrite join_cons_sep, has_char_app, Hx. cbn [Py.has_char orb].
  now rewrite Hc, IH.
Qed.

Lemma map_result_app {A B} (f : A -> result B) (l1 l2 : list A) (o1 o2 : list B) :
  map_result f l1 = Ok o1 -> map_result f l2 = Ok o2 ->
  map_result f (l1 ++ l2)%list = Ok (o1 ++ o2)%list.
Proof.
  revert o1. induction l1 as [|x l1 IH]; intros o1; simpl.
  - now intros [= <-].
  - destruct (f x) as [y|]; [|discriminate]. cbn [rbind].
    destruct (map_result f l1) as [ys|]; [|discriminate]. cbn [rbind].
    intros [= <-] H2. now rewrite (IH ys eq_refl H2).
Qed.

(** A comprehension over a comprehension, element by element. *)
Lemma map_result_bind {A B C} (f : B -> result C) (k : A -> list B) (k' : A -> list C)
    (xs : list A) :
  (forall x, x ∈ xs -> map_result f (k x) = Ok (k' x)) ->
  map_result f (xs ≫= k) = Ok (xs ≫= k').
Proof.
  induction xs as [|x xs IH]; intros H; [reflexivity|].
  change ((x :: xs) ≫= k) with (k x ++ (xs ≫= k))%list.
  change ((x :: xs) ≫= k') with (k' x ++ (xs ≫= k'))%list.
  apply map_result_app.
  - apply H. left.
  - apply IH. intros y Hy. apply H. now right.
Qed.

Lemma bind_length {A B} (k : A -> list B) (n : nat) (xs : list A) :
  (forall x, length (k x) = n) -> length (xs ≫= k) = (length xs * n)%nat.
Proof.
  intros H. induction xs as [|x xs IH]; [reflexivity|].
  change ((x :: xs) ≫= k) with (k x ++ (xs ≫= k))%list.
  rewrite length_app, H, IH. reflexivity.
Qed.

End CodecLists.

(** X1. [parse_file_names] never raises: it returns one tuple per name, of
    seven fields when the base name has six or seven segments and of as
    many fields as the base name has segments otherwise. *)
Theorem parse_file_names_total (fnames : list string) :
  exists parts,
    parse_file_names fnames = Ok parts
    /\ Forall2 (fun f p => length p = arity f) fnames parts.
Proof.
  unfold parse_file_names. induction fnames as [|f fnames (parts & Hp & Hall)].
  - exists []. split; [reflexivity | constructor].
  - destruct (parse_file_name1_total f) as (p & Hf & Hlen).
    exists (p :: parts). cbn [map_result]. rewrite Hf, Hp. split; [reflexivity|].
    now constructor.
Qed.

(** X2. [parse_file_names] looks at the base name only: a directory in
    front of the names does not change the tuples. *)
Theorem parse_file_names_ignores_directory (dir : string) (fnames : list string) :
  Forall (fun f => Py.has_char "/"%char f = false) fnames ->
  parse_file_names ((fun f => dir ++ String "/"%char f) <$> fnames)
  = parse_file_names fnames.
Proof.
  unfold parse_file_names. induction 1 as [|f fnames Hf _ IH]; [reflexivity|].
  rewrite fmap_cons. cbn [map_result]. rewrite IH.
  unfold parse_file_name1. now rewrite (basename_dir dir f Hf), (basename_no_slash f Hf).
Qed.

Lemma parse_file_names_ignores_directory_witness :
  parse_file_names
    ((fun f => "mms/data/mms1/fpi/fast/l2/2019/01" ++ String "/"%char f)
     <$> [Scenario.f_20190101; Scenario.f_20190102])
  = parse_file_names [Scenario.f_20190101; Scenario.f_20190102].
Proof.
  apply parse_file_names_ignores_directory. repeat constructor.
Defined.

(** X3. [construct_filename] returns one name for every combination of
    its arguments: the product of the numbers of spacecraft, instruments,
    modes, levels, descriptors (when given), start times and versions. *)
Theorem construct_filename_count (sc instr mode level tstart version : list string)
    (optdesc : option (list string)) :
  length (construct_filename sc instr mode level tstart version optdesc)
  = (length sc * (length instr * (length mode * (length level
      * (match optdesc with Some o => length o | None => 1 end
         * (length tstart * length version))))))%nat.
Proof.
  unfold construct_filename. destruct optdesc as [o|].
  - repeat (apply bind_length; intros ?). rewrite (bind_length _ 1); [lia | reflexivity].
  - repeat (apply bind_length; intros ?). rewrite Nat.mul_1_l.
    repeat (apply bind_length; intros ?). rewrite (bind_length _ 1); [lia | reflexivity].
Qed.

(** X4. Round trip over multi-valued fields: when every value is a valid
    segment, parsing the names [construct_filename] builds gives, in the
    same order, the tuple of every combination, with the empty descriptor
    when none was given. *)
Theorem parse_construct_product (sc instr mode level tstart version : list string)
    (optdesc : option (list string)) :
  Forall valid_segment sc -> Forall valid_segment instr ->
  Forall valid_segment mode -> Forall valid_segment level ->
  Forall valid_segment tstart -> Forall valid_segment version ->
  (forall o, optdesc = Some o -> Forall valid_segment o) ->
  parse_file_names (construct_filename sc instr mode level tstart version optdesc)
  = Ok (match optdesc with
        | None =>
            s ← sc; i ← instr; m ← mode; l ← level; t ← tstart; v ← version;
            [[s; i; m; l; ""; t; v]]
        | Some optdesc =>
            s ← sc; i ← instr; m ← mode; l ← level; o ← optdesc; t ← tstart;
            v ← version; [[s; i; m; l; o; t; v]]
        end).
Proof.
  intros Hsc Hinstr Hmode Hlevel Htstart Hversion Hopt.
  rewrite Forall_forall in Hsc, Hinstr, Hmode, Hlevel, Htstart, Hversion.
  unfold parse_file_names, construct_filename. destruct optdesc as [od|].
  - specialize (Hopt od eq_refl). rewrite Forall_forall in Hopt.
    apply map_result_bind; intros s Hs. apply map_result_bind; intros i Hi.
    apply map_result_bind; intros m Hm. apply map_result_bind; intros l Hl.
    apply map_result_bind; intros o Ho. apply map_result_bind; intros t Ht.
    apply map_result_bind; intros v Hv.
    cbn [map_result]. rewrite parse_construct_seven by auto. reflexivity.
  - apply map_result_bind; intros s Hs. apply map_result_bind; intros i Hi.
    apply map_result_bind; intros m Hm. apply map_result_bind; intros l Hl.
    apply map_result_bind; intros t Ht. apply map_result_bind; intros v Hv.
    cbn [map_result]. rewrite parse_construct_six by auto. reflexivity.
Qed.

Lemma parse_construct_product_witness :
  parse_file_names
    (construct_filename ["mms1"; "mms2"] ["fpi"] ["fast"; "brst"] ["l2"]
       ["20190101"] ["3.3.0"] (Some ["dis-moms"; "des-moms"]))
  = Ok (s ← ["mms1"; "mms2"]; i ← ["fpi"]; m ← ["fast"; "brst"]; l ← ["l2"];
        o ← ["dis-moms"; "des-moms"]; t ← ["20190101"]; v ← ["3.3.0"];
        [[s; i; m; l; o; t; v]]).
Proof.
  apply (parse_construct_product ["mms1"; "mms2"] ["fpi"] ["fast"; "brst"] ["l2"]
           ["20190101"] ["3.3.0"] (Some ["dis-moms"; "des-moms"]));
    try (repeat constructor; reflexivity).
  intros o [= <-]. repeat constructor; reflexivity.
Defined.

Section MethodParser.

Lemma slice_strip_end (v w : string) :
  String.length w = 4%nat -> Py.slice 0 (-4) (v ++ w) = v.
Proof.
  intros Hw. unfold Py.slice, Py.len, Py.clamp.
  rewrite length_app_string, Hw.
  change (0 <? 0) with false. change (-4 <? 0) with true. cbv iota.
  set (n := String.length v).
  replace (Z.min 0 (Z.of_nat (n + 4))) with 0 by lia.
  replace (Z.max 0 (-4 + Z.of_nat (n + 4))) with (Z.of_nat n) by lia.
  destruct (Z.ltb_spec 0 (Z.of_nat n)) as [Hlt|Hge].
  - replace (Z.to_nat (Z.of_nat n - 0)) with n by lia.
    change (Z.to_nat 0) with 0%nat. subst n. apply substring_prefix.
  - assert (Hn : n = 0%nat) by lia. subst n.
    destruct v; [reflexivity | discriminate].
Qed.

Lemma valid_segment_join (l : list string) :
  Forall valid_segment l ->
  Py.has_char "/"%char (Py.join "_" l) = false.
Proof.
  intros H. apply (has_char_join_other "/"%char "_"%char); [reflexivity|].
  eapply Forall_impl; [exact H|]. now intros s [_ Hs].
Qed.

End MethodParser.

(** X5. The method [parse_file_name] inverts [construct_filename] up to the
    version field, which keeps its leading "v": a name built from valid
    scalar components parses to those components, the descriptor empty when
    omitted, and the version as "v" followed by the version. *)
Theorem parse_file_name_construct
    (sc instr mode level tstart version : string) (optdesc : option string) :
  valid_segment sc -> valid_segment instr -> valid_segment mode ->
  valid_segment level -> valid_segment tstart -> valid_segment version ->
  (forall o, optdesc = Some o -> valid_segment o) ->
  map_result parse_file_name
    (construct_filename [sc] [instr] [mode] [level] [tstart] [version]
       (option_map (fun o => [o]) optdesc))
  = Ok [[sc; instr; mode; level; normalized optdesc; tstart; "v" ++ version]].
Proof.
  intros Hsc Hinstr Hmode Hlevel Htstart Hversion Hopt.
  pose proof (valid_last_segment version Hversion) as Hlast.
  assert (Hparse : forall segs : list string,
    Forall valid_segment segs -> segs <> [] ->
    Py.split "_"%char (Py.basename (Py.join "_" segs)) = segs).
  { intros segs Hsegs Hne.
    rewrite basename_no_slash by now apply valid_segment_join.
    apply split_join; [|exact Hne].
    eapply Forall_impl; [exact Hsegs|]. now intros s [Hs _]. }
  destruct optdesc as [o|]; cbn [option_map normalized construct_filename].
  - specialize (Hopt o eq_refl).
    change (map_result parse_file_name _) with
      (do y <- parse_file_name
                 (Py.join "_" [sc; instr; mode; level; o; tstart; "v" ++ version ++ ".cdf"]);
       do ys <- Ok []; Ok (y :: ys)).
    unfold parse_file_name.
    rewrite Hparse; [|repeat (constructor; [assumption|]); constructor | discriminate].
    cbn -[Py.slice String.append Py.index]. rewrite index_last7. cbn [rbind].
    change ("v" ++ version ++ ".cdf") with (("v" ++ version) ++ ".cdf").
    rewrite slice_strip_end by reflexivity. reflexivity.
  - change (map_result parse_file_name _) with
      (do y <- parse_file_name
                 (Py.join "_" [sc; instr; mode; level; tstart; "v" ++ version ++ ".cdf"]);
       do ys <- Ok []; Ok (y :: ys)).
    unfold parse_file_name.
    rewrite Hparse; [|repeat (constructor; [assumption|]); constructor | discriminate].
    cbn -[Py.slice String.append Py.index].
    change (Py.insert (-2) "" [sc; instr; mode; level; tstart; "v" ++ version ++ ".cdf"])
      with [sc; instr; mode; level; ""; tstart; "v" ++ version ++ ".cdf"].
    rewrite index_last7. cbn [rbind].
    change ("v" ++ version ++ ".cdf") with (("v" ++ version) ++ ".cdf").
    rewrite slice_strip_end by reflexivity. reflexivity.
Qed.

Lemma parse_file_name_construct_witness :
  map_result parse_file_name
    (construct_filename ["mms1"] ["fpi"] ["fast"] ["l2"] ["20190101"] ["1.0.0"]
       (option_map (fun o => [o]) None))
  = Ok [["mms1"; "fpi"; "fast"; "l2"; normalized None; "20190101"; "v" ++ "1.0.0"]].
Proof.
  apply (parse_file_name_construct "mms1" "fpi" "fast" "l2" "20190101" "1.0.0" None);
    try (split; reflexivity).
  discriminate.
Defined.

(** ** Paths *)

Section PathLists.

Lemma bind_ext {A B} (k k' : A -> list B) (xs : list A) :
  (forall x, k x = k' x) -> xs ≫= k = xs ≫= k'.
Proof.
  intros H. induction xs as [|x xs IH]; [reflexivity|].
  change ((x :: xs) ≫= k) with (k x ++ (xs ≫= k))%list.
  change ((x :: xs) ≫= k') with (k' x ++ (xs ≫= k'))%list.
  now rewrite H, IH.
Qed.

Lemma bind_fmap_l {A B C} (g : A -> B) (k : B -> list C) (xs : list A) :
  (g <$> xs) ≫= k = xs ≫= (fun x => k (g x)).
Proof.
  induction xs as [|x xs IH]; [reflexivity|]. rewrite fmap_cons.
  change ((g x :: (g <$> xs)) ≫= k) with (k (g x) ++ ((g <$> xs) ≫= k))%list.
  now rewrite IH.
Qed.

Lemma length_bind_ext {A B C} (k1 : A -> list B) (k2 : A -> list C) (xs : list A) :
  (forall x, length (k1 x) = length (k2 x)) ->
  length (xs ≫= k1) = length (xs ≫= k2).
Proof.
  intros H. induction xs as [|x xs IH]; [reflexivity|].
  change ((x :: xs) ≫= k1) with (k1 x ++ (xs ≫= k1))%list.
  change ((x :: xs) ≫= k2) with (k2 x ++ (xs ≫= k2))%list.
  now rewrite !length_app, H, IH.
Qed.

Lemma zip_with_bind {A B C D} (f : B -> C -> D) (k1 : A -> list B) (k2 : A -> list C)
    (xs : list A) :
  (forall x, length (k1 x) = length (k2 x)) ->
  zip_with f (xs ≫= k1) (xs ≫= k2) = xs ≫= (fun x => zip_with f (k1 x) (k2 x)).
Proof.
  intros H. induction xs as [|x xs IH]; [reflexivity|].
  change ((x :: xs) ≫= k1) with (k1 x ++ (xs ≫= k1))%list.
  change ((x :: xs) ≫= k2) with (k2 x ++ (xs ≫= k2))%list.
  rewrite zip_with_app by apply H. now rewrite IH.
Qed.

End PathLists.

Local Ltac same_length :=
  repeat first [ rewrite bind_fmap_l | apply length_bind_ext; intros ? ]; reflexivity.

Local Ltac descend :=
  rewrite zip_with_bind by (intros; same_length); apply bind_ext; intros ?.

(** X6. With [files=True], [construct_path] returns, combination by
    combination, the directory it returns with [files=False] joined with
    the name [construct_filename] builds for the same combination, the
    start time followed by "*" and the version "*". *)
Theorem construct_path_files (sc instr mode level tstart : list string)
    (optdesc : option (list string)) (root : string) :
  construct_path sc instr mode level tstart optdesc root true
  = zip_with (fun dir name => Py.path_join dir [name])
      (construct_path sc instr mode level tstart optdesc root false)
      (construct_filename sc instr mode level ((fun t => t ++ "*") <$> tstart) ["*"]
         optdesc).
Proof.
  symmetry. unfold construct_path, construct_filename. destruct optdesc as [od|].
  - do 5 descend. rewrite bind_fmap_l. descend.
    destruct (String.eqb x1 "brst"); reflexivity.
  - do 4 descend. rewrite bind_fmap_l. descend.
    destruct (String.eqb x1 "brst"); reflexivity.
Qed.

(** X7. [name2path] and the codec agree: for valid scalar components, the
    local path [name2path] gives the file named by [construct_filename] is
    that name joined to the directory [construct_path] returns for the same
    components, with the day directory for mode "brst" and without it
    otherwise. *)
Theorem name2path_construct (sc instr mode level tstart version root : string)
    (optdesc : option string) :
  valid_segment sc -> valid_segment instr -> valid_segment mode ->
  valid_segment level -> valid_segment tstart -> valid_segment version ->
  (forall o, optdesc = Some o -> valid_segment o) ->
  exists dir name,
    construct_path [sc] [instr] [mode] [level] [tstart]
      (option_map (fun o => [o]) optdesc) root false = [dir]
    /\ construct_filename [sc] [instr] [mode] [level] [tstart] [version]
         (option_map (fun o => [o]) optdesc) = [name]
    /\ name2path root name = Ok (Py.path_join dir [name]).
Proof.
  intros Hsc Hinstr Hmode Hlevel Htstart Hversion Hopt.
  pose proof (valid_last_segment version Hversion) as Hlast.
  assert (Hsplit : forall segs : list string,
    Forall valid_segment segs -> segs <> [] ->
    Py.split "_"%char (Py.join "_" segs) = segs).
  { intros segs Hsegs Hne. apply split_join; [|exact Hne].
    eapply Forall_impl; [exact Hsegs|]. now intros s [Hs _]. }
  destruct optdesc as [o|]; cbn [option_map].
  - specialize (Hopt o eq_refl). do 2 eexists.
    split; [reflexivity|]. split; [reflexivity|].
    unfold name2path.
    rewrite Hsplit; [|repeat (constructor; [assumption|]); constructor | discriminate].
    change (Py.index [sc; instr; mode; level; o; tstart; "v" ++ version ++ ".cdf"] 2)
      with (Ok mode : result string).
    change (Py.index [sc; instr; mode; level; o; tstart; "v" ++ version ++ ".cdf"] (-2))
      with (Ok tstart : result string).
    cbn [rbind]. destruct (String.eqb mode "brst"); reflexivity.
  - do 2 eexists. split; [reflexivity|]. split; [reflexivity|].
    unfold name2path.
    rewrite Hsplit; [|repeat (constructor; [assumption|]); constructor | discriminate].
    change (Py.index [sc; instr; mode; level; tstart; "v" ++ version ++ ".cdf"] 2)
      with (Ok mode : result string).
    change (Py.index [sc; instr; mode; level; tstart; "v" ++ version ++ ".cdf"] (-2))
      with (Ok tstart : result string).
    cbn [rbind]. destruct (String.eqb mode "brst"); reflexivity.
Qed.

Lemma name2path_construct_witness :
  exists dir name,
    construct_path ["mms1"] ["fpi"] ["brst"] ["l2"] ["20190101120000"]
      (option_map (fun o => [o]) (Some "dis-moms")) "/data" false = [dir]
    /\ construct_filename ["mms1"] ["fpi"] ["brst"] ["l2"] ["20190101120000"] ["1.0.0"]
         (option_map (fun o => [o]) (Some "dis-moms")) = [name]
    /\ name2path "/data" name = Ok (Py.path_join dir [name]).
Proof.
  apply (name2path_construct "mms1" "fpi" "brst" "l2" "20190101120000" "1.0.0" "/data"
           (Some "dis-moms")); try (split; reflexivity).
  intros o [= <-]. split; reflexivity.
Defined.

(** X8. [remote2localnames] drops the first two directories of a remote
    name and joins what follows them, component by component, to
    [data_root]. *)
Theorem remote2localnames_drops_two (data_root a b : string) (rels : list string) :
  Py.has_char "/"%char a = false -> Py.has_char "/"%char b = false ->
  remote2localnames data_root
    ((fun rel => a ++ String "/"%char (b ++ String "/"%char rel)) <$> rels)
  = (fun rel => Py.path_join data_root (Py.split "/"%char rel)) <$> rels.
Proof.
  intros Ha Hb. unfold remote2localnames. rewrite <- list_fmap_compose.
  apply list_fmap_ext. intros _ rel _. cbn [compose].
  rewrite (split_app _ a _ Ha), (split_app _ b _ Hb). reflexivity.
Qed.

Lemma remote2localnames_drops_two_witness :
  remote2localnames "/data"
    ((fun rel => "mms" ++ String "/"%char ("data" ++ String "/"%char rel))
     <$> ["mms1/fpi/fast/l2/2019/01/" ++ Scenario.f_20190101])
  = (fun rel => Py.path_join "/data" (Py.split "/"%char rel))
    <$> ["mms1/fpi/fast/l2/2019/01/" ++ Scenario.f_20190101].
Proof.
  apply (remote2localnames_drops_two "/data" "mms" "data"); reflexivity.
Defined.

(** X9. A remote name with fewer than two slashes has no component left
    after the first two: [remote2localnames] maps it to [data_root] itself,
    and the file name is lost. *)
Theorem remote2localnames_short (data_root : string) (remote_names : list string) :
  Forall (fun file => (length (Py.split "/"%char file) <= 2)%nat) remote_names ->
  remote2localnames data_root remote_names = (fun _ => data_root) <$> remote_names.
Proof.
  intros H. unfold remote2localnames. apply Forall_fmap_ext_1.
  eapply Forall_impl; [exact H|]. intros file Hlen. cbv beta.
  rewrite drop_ge by exact Hlen. reflexivity.
Qed.

Lemma remote2localnames_short_witness :
  remote2localnames "/data" [Scenario.f_20190101; "data/" ++ Scenario.f_20190102]
  = (fun _ => "/data") <$> [Scenario.f_20190101; "data/" ++ Scenario.f_20190102].
Proof.
  apply remote2localnames_short. repeat constructor; vm_compute; lia.
Defined.

Section ParseTime.

Lemma parse_time_one (time : string) :
  parse_time [time]
  = [[Py.slice 0 4 time; Py.slice 4 6 time; Py.slice 6 8 time;
      Py.slice 8 10 time; Py.slice 10 12 time; Py.slice 12 14 time]].
Proof. reflexivity. Qed.

Local Ltac peel t := destruct t as [|? t]; [try (cbn in *; lia); try reflexivity|].

Lemma slices_partition (time : string) :
  Py.len time <= 14 ->
  String.concat "" [Py.slice 0 4 time; Py.slice 4 6 time; Py.slice 6 8 time;
                    Py.slice 8 10 time; Py.slice 10 12 time; Py.slice 12 14 time]
  = time.
Proof.
  unfold Py.len. intros Hlen.
  do 15 peel time.
  cbn [String.length] in Hlen. lia.
Qed.

Lemma slices_date_only (time : string) :
  Py.len time <= 8 ->
  Py.slice 8 10 time = "" /\ Py.slice 10 12 time = "" /\ Py.slice 12 14 time = "".
Proof.
  unfold Py.len. intros Hlen.
  do 9 (destruct time as [|? time]; [repeat split; reflexivity|]).
  cbn [String.length] in Hlen. lia.
Qed.

End ParseTime.

(** X10. [parse_time] cuts a time stamp of up to fourteen characters into
    six fields that concatenate back to the stamp, and for a stamp of up to
    eight characters (a date) the hour, minute and second fields are empty
    strings, not errors. *)
Theorem parse_time_fields (times : list string) :
  Forall2 (fun time fields =>
             length fields = 6%nat
             /\ (Py.len time <= 14 -> String.concat "" fields = time)
             /\ (Py.len time <= 8 -> drop 3 fields = [""; ""; ""]))
    times (parse_time times).
Proof.
  unfold parse_time. induction times as [|time times IH]; [constructor|].
  rewrite fmap_cons. constructor; [|exact IH].
  split; [reflexivity|]. split.
  - apply slices_partition.
  - intros Hlen. destruct (slices_date_only time Hlen) as (H1 & H2 & H3).
    cbn [drop]. now rewrite H1, H2, H3.
Qed.

(** ** The time-range filter, case by case *)

Section TimeFilterCases.

Local Open Scope list_scope.

(** The first two stages leave the candidates to the start-time stage. *)
Lemma filter_time_candidates fnames starts (s e : Z) :
  file_starts fnames = Ok starts ->
  filter_time fnames s e
  = start_filter (candidates starts fnames e).*1 (candidates starts fnames e).*2 s.
Proof.
  intros Hstarts. pose proof (file_starts_length _ _ Hstarts) as Hlen.
  unfold filter_time. rewrite Hstarts. cbn [rbind].
  rewrite (sort_by_start_spec _ _ Hlen). cbn [rbind fst snd].
  rewrite end_filter_spec. reflexivity.
Qed.

Lemma filter_time_main fnames starts (s e : Z) pre t0 f0 rest :
  file_starts fnames = Ok starts ->
  candidates starts fnames e = pre ++ (t0, f0) :: rest ->
  Forall (fun p => p.1 < s) pre ->
  Forall (fun p => s <= p.1) ((t0, f0) :: rest) ->
  filter_time fnames s e
  = Ok ((if t0 =? s then [] else option_list (last pre)) ++ (t0, f0) :: rest).*2.
Proof.
  intros Hstarts HK Hpre Hpost.
  rewrite (filter_time_candidates _ _ _ _ Hstarts), HK.
  rewrite (start_filter_spec pre rest t0 f0 s Hpre (Forall_inv Hpost)).
  rewrite (filter_all (fun p : Z * string => s <=? p.1) ((t0, f0) :: rest)); [reflexivity|].
  eapply Forall_impl; [exact Hpost|]. intros p Hp. now apply Z.leb_le.
Qed.

Lemma index_last {A} (l : list A) (x : A) :
  Py.index (l ++ [x]) (-1) = Ok x.
Proof.
  unfold Py.index. change (-1 <? 0) with true. cbv iota.
  rewrite length_app. cbn [length].
  destruct (Z.leb_spec 0 (-1 + Z.of_nat (length l + 1))) as [_|]; [|lia].
  destruct (Z.ltb_spec (-1 + Z.of_nat (length l + 1)) (Z.of_nat (length l + 1)))
    as [_|]; [|lia].
  cbn [andb].
  replace (Z.to_nat (-1 + Z.of_nat (length l + 1))) with (length l) by lia.
  rewrite lookup_app_r, Nat.sub_diag by lia. reflexivity.
Qed.

(** The start-time stage when no candidate starts at or after
    [start_date]. *)
Lemma start_filter_none (K : list (Z * string)) (s : Z) :
  Forall (fun p => p.1 < s) K ->
  start_filter K.*1 K.*2 s
  = match last K with
    | Some (t, f) =>
        if Datetime.date t =? Datetime.date s then Ok [f] else Raise IndexError
    | None => Raise IndexError
    end.
Proof.
  intros HK.
  assert (Hidx : (List.filter (fun it : Z * Z => s <=? it.2) (enumerate K.*1)).*1 = []).
  { assert (Hskip : Forall (fun k => (fun t => s <=? t) k = false) K.*1).
    { apply Forall_fmap. eapply Forall_impl; [exact HK|].
      intros p Hp. apply Z.leb_gt. exact Hp. }
    pose proof (filter_enumerate_skip (fun t => s <=? t) 0 K.*1 [] Hskip) as H.
    rewrite app_nil_r in H. unfold enumerate, range. cbv beta in H. rewrite H.
    reflexivity. }
  unfold start_filter. rewrite Hidx.
  destruct K as [|p0 K0 _] using rev_ind; [reflexivity|].
  rewrite last_snoc. destruct p0 as [t f].
  rewrite !fmap_app. cbn [fmap list_fmap fst snd].
  rewrite index_last. cbn [rbind length Nat.eqb andb].
  destruct (Datetime.date t =? Datetime.date s); [|reflexivity].
  cbn [rbind length Nat.ltb Nat.leb].
  rewrite length_app, length_fmap. cbn [length].
  replace (Z.of_nat (length K0 + 1) - 1) with (Z.of_nat (length K0)) by lia.
  unfold gather. cbn [map_result].
  rewrite !index_nat, !lookup_app_r by (rewrite length_fmap; lia).
  rewrite !length_fmap, Nat.sub_diag. reflexivity.
Qed.

(** Either some candidate starts at or after [start_date], and the
    candidates split there, or all of them start before it. *)
Lemma candidates_split (K : list (Z * string)) (s : Z) :
  StronglySorted key_le K ->
  Forall (fun p => p.1 < s) K
  \/ exists pre t0 f0 rest,
       K = pre ++ (t0, f0) :: rest
       /\ Forall (fun p => p.1 < s) pre
       /\ Forall (fun p => s <= p.1) ((t0, f0) :: rest).
Proof.
  intros Hs. destruct (sorted_split s K Hs) as (pre & post & -> & Hpre & Hpost).
  destruct post as [|[t0 f0] rest].
  - left. now rewrite app_nil_r.
  - right. now exists pre, t0, f0, rest.
Qed.

Lemma candidates_sorted starts fnames (e : Z) :
  StronglySorted key_le (candidates starts fnames e).
Proof. apply filter_sorted, stable_sort_sorted. Qed.

(** The shape of every result of [filter_time]. *)
Lemma filter_time_shape fnames starts (s e : Z) out :
  file_starts fnames = Ok starts ->
  filter_time fnames s e = Ok out ->
  (exists pre t0 f0 rest,
     candidates starts fnames e = pre ++ (t0, f0) :: rest
     /\ Forall (fun p => p.1 < s) pre
     /\ Forall (fun p => s <= p.1) ((t0, f0) :: rest)
     /\ out = ((if t0 =? s then [] else option_list (last pre)) ++ (t0, f0) :: rest).*2)
  \/ (exists t f,
        Forall (fun p => p.1 < s) (candidates starts fnames e)
        /\ last (candidates starts fnames e) = Some (t, f)
        /\ Datetime.date t = Datetime.date s
        /\ out = [f]).
Proof.
  intros Hstarts Hout.
  destruct (candidates_split _ s (candidates_sorted starts fnames e))
    as [Hall | (pre & t0 & f0 & rest & HK & Hpre & Hpost)].
  - right. rewrite (filter_time_candidates _ _ _ _ Hstarts) in Hout.
    rewrite (start_filter_none _ _ Hall) in Hout.
    destruct (last (candidates starts fnames e)) as [[t f]|]; [|discriminate].
    destruct (Z.eqb_spec (Datetime.date t) (Datetime.date s)) as [Hd|]; [|discriminate].
    injection Hout as <-. exists t, f. auto.
  - left. rewrite (filter_time_main _ _ _ _ _ _ _ _ Hstarts HK Hpre Hpost) in Hout.
    injection Hout as <-. exists pre, t0, f0, rest. auto.
Qed.

End TimeFilterCases.

(** X11. The same-day case of [filter_time]: when no file that starts by
    [end_date] starts at or after [start_date], but the latest of them
    starts on the calendar day of [start_date], that single file is
    returned. *)
Theorem filter_time_same_day (fnames : list string) (start_date end_date : Datetime.t)
    (starts : list Datetime.t) (t : Datetime.t) (f : string) :
  file_starts fnames = Ok starts ->
  Forall (fun p => p.1 < start_date) (candidates starts fnames end_date) ->
  last (candidates starts fnames end_date) = Some (t, f) ->
  Datetime.date t = Datetime.date start_date ->
  filter_time fnames start_date end_date = Ok [f].
Proof.
  intros Hstarts Hall Hlast Hdate.
  rewrite (filter_time_candidates _ _ _ _ Hstarts), (start_filter_none _ _ Hall), Hlast.
  now rewrite Hdate, Z.eqb_refl.
Qed.

Lemma filter_time_same_day_witness :
  filter_time [Scenario.f_20190101; Scenario.f_20181231]
    (Datetime.of_fields 2019 1 1 12 0 0) (Datetime.of_fields 2019 1 3 0 0 0)
  = Ok [Scenario.f_20190101].
Proof.
  assert (H1 : file_starts [Scenario.f_20190101; Scenario.f_20181231]
               = Ok [Datetime.of_fields 2019 1 1 0 0 0; Datetime.of_fields 2018 12 31 0 0 0])
    by (vm_compute; reflexivity).
  assert (HK : candidates
                 [Datetime.of_fields 2019 1 1 0 0 0; Datetime.of_fields 2018 12 31 0 0 0]
                 [Scenario.f_20190101; Scenario.f_20181231]
                 (Datetime.of_fields 2019 1 3 0 0 0)
               = [(Datetime.of_fields 2018 12 31 0 0 0, Scenario.f_20181231);
                  (Datetime.of_fields 2019 1 1 0 0 0, Scenario.f_20190101)])
    by (vm_compute; reflexivity).

  refine (filter_time_same_day _ _ _ _ (Datetime.of_fields 2019 1 1 0 0 0) _ H1 _ _ _).
  - rewrite HK. repeat constructor.
  - rewrite HK. reflexivity.
  - vm_compute. reflexivity.
Defined.
(** X12. When the time stamps of all names parse, [filter_time] raises
    [IndexError] exactly when no file that starts by [end_date] starts at
    or after [start_date] and the latest of them, if there is one, starts
    on another calendar day than [start_date]. *)
Theorem filter_time_index_error (fnames : list string) (start_date end_date : Datetime.t)
    (starts : list Datetime.t) :
  file_starts fnames = Ok starts ->
  filter_time fnames start_date end_date = Raise IndexError
  <-> Forall (fun p => p.1 < start_date) (candidates starts fnames end_date)
      /\ (forall t f, last (candidates starts fnames end_date) = Some (t, f) ->
                      Datetime.date t <> Datetime.date start_date).
Proof.
  intros Hstarts. split.
  - intros Herr.
    destruct (candidates_split _ start_date (candidates_sorted starts fnames end_date))
      as [Hall | (pre & t0 & f0 & rest & HK & Hpre & Hpost)].
    + split; [exact Hall|]. intros t f Hlast Hdate.
      rewrite (filter_time_candidates _ _ _ _ Hstarts), (start_filter_none _ _ Hall),
        Hlast, Hdate, Z.eqb_refl in Herr. discriminate.
    + rewrite (filter_time_main _ _ _ _ _ _ _ _ Hstarts HK Hpre Hpost) in Herr.
      discriminate.
  - intros [Hall Hlast].
    rewrite (filter_time_candidates _ _ _ _ Hstarts), (start_filter_none _ _ Hall).
    destruct (last (candidates starts fnames end_date)) as [[t f]|]; [|reflexivity].
    specialize (Hlast t f eq_refl).
    now rewrite (proj2 (Z.eqb_neq _ _) Hlast).
Qed.

Lemma filter_time_index_error_witness :
  filter_time [Scenario.f_20181231; Scenario.f_20190105]
    (Datetime.of_fields 2019 1 3 0 0 0) (Datetime.of_fields 2019 1 4 0 0 0)
  = Raise IndexError
  <-> Forall (fun p => p.1 < Datetime.of_fields 2019 1 3 0 0 0)
        (candidates [Datetime.of_fields 2018 12 31 0 0 0; Datetime.of_fields 2019 1 5 0 0 0]
           [Scenario.f_20181231; Scenario.f_20190105] (Datetime.of_fields 2019 1 4 0 0 0))
      /\ (forall t f,
            last (candidates
                    [Datetime.of_fields 2018 12 31 0 0 0; Datetime.of_fields 2019 1 5 0 0 0]
                    [Scenario.f_20181231; Scenario.f_20190105]
                    (Datetime.of_fields 2019 1 4 0 0 0)) = Some (t, f) ->
            Datetime.date t <> Datetime.date (Datetime.of_fields 2019 1 3 0 0 0)).
Proof.
  refine (filter_time_index_error
            [Scenario.f_20181231; Scenario.f_20190105]
            (Datetime.of_fields 2019 1 3 0 0 0) (Datetime.of_fields 2019 1 4 0 0 0)
            [Datetime.of_fields 2018 12 31 0 0 0; Datetime.of_fields 2019 1 5 0 0 0] _).
  vm_compute. reflexivity.
Defined.

Section TimeFilterTail.

Local Open Scope list_scope.

Lemma map_result_Forall2 {A B} (f : A -> result B) (l : list A) (out : list B) :
  map_result f l = Ok out <-> Forall2 (fun x y => f x = Ok y) l out.
Proof.
  split.
  - revert out. induction l as [|x l IH]; intros out; simpl.
    + intros [= <-]. constructor.
    + destruct (f x) as [y|] eqn:Hy; [|discriminate]. cbn [rbind].
      destruct (map_result f l) as [ys|]; [|discriminate]. cbn [rbind].
      intros [= <-]. constructor; [exact Hy | now apply IH].
  - induction 1 as [|x y l out Hxy _ IH]; [reflexivity|].
    simpl. now rewrite Hxy, IH.
Qed.

(** Parsing name by name returns. *)
Lemma map_parse_returns (fnames : list string) :
  exists parts, map_result parse_file_name1 fnames = Ok parts.
Proof.
  induction fnames as [|f fnames (parts & Hp)]; [now exists []|].
  destruct (parse_file_name1_total f) as (p & Hf & _).
  exists (p :: parts). cbn [map_result]. now rewrite Hf, Hp.
Qed.

(** The start times are computed name by name. *)
Lemma file_starts_map (fnames : list string) :
  file_starts fnames = map_result start_of fnames.
Proof.
  unfold file_starts, parse_file_names.
  induction fnames as [|f fnames IH]; [reflexivity|].
  cbn [map_result]. unfold start_of at 1.
  destruct (parse_file_name1_total f) as (p & -> & _).
  destruct (map_parse_returns fnames) as (ps & Hps).
  rewrite Hps in IH |- *. cbn [rbind] in IH |- *.
  cbn [map_result]. now rewrite IH.
Qed.

Lemma starts_of_pairs (P : list (Z * string)) :
  Forall (fun p => start_of p.2 = Ok p.1) P -> file_starts P.*2 = Ok P.*1.
Proof.
  intros H. rewrite file_starts_map. apply map_result_Forall2.
  induction H as [|p P Hp _ IH]; [constructor|].
  rewrite !fmap_cons. now constructor.
Qed.

Lemma zip_starts_pairs fnames starts :
  file_starts fnames = Ok starts ->
  Forall (fun p : Z * string => start_of p.2 = Ok p.1) (zip starts fnames).
Proof.
  rewrite file_starts_map, map_result_Forall2.
  induction 1 as [|f t fnames starts Hft _ IH]; [constructor|].
  cbn [zip zip_with]. now constructor.
Qed.

Lemma candidates_pairs fnames starts (e : Z) :
  file_starts fnames = Ok starts ->
  Forall (fun p : Z * string => start_of p.2 = Ok p.1 /\ p.1 <= e)
    (candidates starts fnames e).
Proof.
  intros Hstarts. pose proof (zip_starts_pairs _ _ Hstarts) as Hz.
  rewrite Forall_forall in Hz |- *. intros p Hp.
  apply candidates_elem in Hp as [Hp Hle]. split; [now apply Hz | exact Hle].
Qed.

(** A list in ascending order is left as it is by the sort. *)
Lemma stable_sort_id {A} (l : list (Z * A)) :
  StronglySorted key_le l -> stable_sort l = l.
Proof.
  induction 1 as [|x l Hs IH Hx]; [reflexivity|].
  cbn [stable_sort]. rewrite IH. destruct l as [|y l]; [reflexivity|].
  cbn [place]. apply Forall_inv in Hx. unfold key_le in Hx.
  now rewrite (proj2 (Z.leb_le _ _) Hx).
Qed.

(** Candidates that are in order and start by [end_date] are their own
    candidates. *)
Lemma candidates_id (P : list (Z * string)) (e : Z) :
  StronglySorted key_le P -> Forall (fun p => p.1 <= e) P ->
  candidates P.*1 P.*2 e = P.
Proof.
  intros Hs He. unfold candidates. rewrite zip_fst_snd, (stable_sort_id _ Hs).
  apply filter_all. eapply Forall_impl; [exact He|]. intros p Hp. now apply Z.leb_le.
Qed.

Lemma sorted_app_l {A} (l1 l2 : list (Z * A)) :
  StronglySorted key_le (l1 ++ l2) -> StronglySorted key_le l1.
Proof.
  induction l1 as [|x l1 IH]; [constructor|].
  intros H. apply StronglySorted_inv in H as [H Hx].
  constructor; [now apply IH|]. now apply Forall_app in Hx as [Hx _].
Qed.

(** What [filter_time] returns is a non-empty tail of the candidates. *)
Lemma filter_time_suffix fnames starts (s e : Z) out :
  file_starts fnames = Ok starts ->
  filter_time fnames s e = Ok out ->
  exists P, P `suffix_of` candidates starts fnames e /\ P <> [] /\ out = P.*2.
Proof.
  intros Hstarts Hout.
  destruct (filter_time_shape _ _ _ _ _ Hstarts Hout)
    as [(pre & t0 & f0 & rest & HK & Hpre & Hpost & ->) | (t & f & Hall & Hlast & Hd & ->)].
  - eexists. split; [|split; [|reflexivity]].
    + rewrite HK. destruct (t0 =? s).
      * now exists pre.
      * destruct pre as [|p pre0 _] using rev_ind; [now exists []|].
        rewrite last_snoc. cbn [option_list]. exists pre0. now rewrite <- app_assoc.
    + destruct (if t0 =? s then [] else option_list (last pre)); discriminate.
  - exists [(t, f)]. split; [|split; [discriminate | reflexivity]].
    apply last_Some in Hlast as [K0 ->]. now exists K0.
Qed.

End TimeFilterTail.

(** X13. Whatever [filter_time] returns is a non-empty tail of the
    candidates: the files that start by [end_date], in ascending order of
    start time, with some of the earliest ones removed and nothing else
    changed. *)
Theorem filter_time_tail (fnames : list string) (start_date end_date : Datetime.t)
    (out : list string) :
  filter_time fnames start_date end_date = Ok out ->
  exists (starts : list Datetime.t) (P : list (Datetime.t * string)),
    file_starts fnames = Ok starts
    /\ P `suffix_of` candidates starts fnames end_date
    /\ StronglySorted key_le P
    /\ P <> []
    /\ out = P.*2.
Proof.
  intros Hout.
  destruct (file_starts fnames) as [starts|] eqn:Hstarts.
  2:{ unfold filter_time in Hout. rewrite Hstarts in Hout. discriminate. }
  destruct (filter_time_suffix _ _ _ _ _ Hstarts Hout) as (P & Hsuf & Hne & ->).
  exists starts, P. split; [reflexivity|]. split; [exact Hsuf|].
  split; [|split; [exact Hne | reflexivity]].
  destruct Hsuf as [K0 HK]. pose proof (candidates_sorted starts fnames end_date) as Hs.
  rewrite HK in Hs. now apply sorted_app_r in Hs.
Qed.

Lemma filter_time_tail_witness :
  exists (starts : list Datetime.t) (P : list (Datetime.t * string)),
    file_starts [Scenario.f_20181231; Scenario.f_20190101; Scenario.f_20190102]
      = Ok starts
    /\ P `suffix_of` candidates starts
                       [Scenario.f_20181231; Scenario.f_20190101; Scenario.f_20190102]
                       (Datetime.of_fields 2019 1 3 0 0 0)
    /\ StronglySorted key_le P
    /\ P <> []
    /\ [Scenario.f_20190101; Scenario.f_20190102] = P.*2.
Proof.
  refine (filter_time_tail
            [Scenario.f_20181231; Scenario.f_20190101; Scenario.f_20190102]
            (Datetime.of_fields 2019 1 1 12 0 0) (Datetime.of_fields 2019 1 3 0 0 0)
            [Scenario.f_20190101; Scenario.f_20190102] _).
  vm_compute. reflexivity.
Defined.

(** X14. [filter_time] is idempotent: filtering what it returned, with the
    same range, returns the same list. *)
Theorem filter_time_idempotent (fnames : list string) (start_date end_date : Datetime.t)
    (out : list string) :
  filter_time fnames start_date end_date = Ok out ->
  filter_time out start_date end_date = Ok out.
Proof.
  intros Hout.
  destruct (file_starts fnames) as [starts|] eqn:Hstarts.
  2:{ unfold filter_time in Hout. rewrite Hstarts in Hout. discriminate. }
  pose proof (candidates_pairs _ _ end_date Hstarts) as Hpairs.
  pose proof (candidates_sorted starts fnames end_date) as Hsorted.
  assert (Hagain : forall P : list (Z * string),
    P `suffix_of` candidates starts fnames end_date ->
    file_starts P.*2 = Ok P.*1 /\ candidates P.*1 P.*2 end_date = P).
  { intros P [K0 HK]. rewrite HK in Hpairs, Hsorted.
    apply Forall_app in Hpairs as [_ Hpairs]. apply sorted_app_r in Hsorted.
    split.
    - apply starts_of_pairs. eapply Forall_impl; [exact Hpairs|]. now intros p [Hp _].
    - apply candidates_id; [exact Hsorted|].
      eapply Forall_impl; [exact Hpairs|]. now intros p [_ Hp]. }
  destruct (filter_time_shape _ _ _ _ _ Hstarts Hout)
    as [(pre & t0 & f0 & rest & HK & Hpre & Hpost & ->) | (t & f & Hall & Hlast & Hd & ->)].
  - destruct (Z.eqb_spec t0 start_date) as [Heq|Hneq].
    + destruct (Hagain ((t0, f0) :: rest)) as [Hs2 HK2]; [now exists pre|].
      cbn [app]. rewrite (filter_time_main _ _ _ _ [] t0 f0 rest Hs2 HK2 (Forall_nil_2 _) Hpost).
      now rewrite (proj2 (Z.eqb_eq _ _) Heq).
    + destruct pre as [|p pre0 _] using rev_ind.
      * destruct (Hagain ((t0, f0) :: rest)) as [Hs2 HK2]; [now exists []|].
        change (option_list (last (@nil (Z * string))) ++ (t0, f0) :: rest)%list
          with ((t0, f0) :: rest).
        rewrite (filter_time_main _ _ _ _ [] t0 f0 rest Hs2 HK2 (Forall_nil_2 _) Hpost).
        now rewrite (proj2 (Z.eqb_neq _ _) Hneq).
      * rewrite last_snoc. cbn [option_list].
        destruct (Hagain ([p] ++ (t0, f0) :: rest)%list) as [Hs2 HK2].
        { exists pre0. now rewrite HK, <- app_assoc. }
        apply Forall_app in Hpre as [_ Hp].
        change (filter_time ([p] ++ (t0, f0) :: rest)%list.*2 start_date end_date
                = Ok ([p] ++ (t0, f0) :: rest)%list.*2).
        rewrite (filter_time_main _ _ _ _ [p] t0 f0 rest Hs2 HK2 Hp Hpost).
        now rewrite (proj2 (Z.eqb_neq _ _) Hneq).
  - apply last_Some in Hlast as [K0 HK].
    destruct (Hagain [(t, f)]) as [Hs2 HK2]; [now exists K0|].
    rewrite HK in Hall. apply Forall_app in Hall as [_ Hall].
    rewrite (filter_time_candidates _ _ _ _ Hs2), HK2, (start_filter_none _ _ Hall).
    cbn [last]. now rewrite Hd, Z.eqb_refl.
Qed.

Lemma filter_time_idempotent_witness :
  filter_time [Scenario.f_20190101; Scenario.f_20190102]
    (Datetime.of_fields 2019 1 1 12 0 0) (Datetime.of_fields 2019 1 3 0 0 0)
  = Ok [Scenario.f_20190101; Scenario.f_20190102].
Proof.
  refine (filter_time_idempotent
            [Scenario.f_20181231; Scenario.f_20190101; Scenario.f_20190102]
            (Datetime.of_fields 2019 1 1 12 0 0) (Datetime.of_fields 2019 1 3 0 0 0)
            [Scenario.f_20190101; Scenario.f_20190102] _).
  vm_compute. reflexivity.
Defined.

(** ** The attributes, assignment by assignment *)

Section Assignments.

Import MMSDownloader.

Lemma setattr_site (self : obj) (value : pyval) :
  __setattr__ "site" value self
  = if site_accepted value then Ok (<["site" := site_stored value]> self)
    else Raise ValueError.
Proof.
  unfold __setattr__. unfold setattr_body at 1. cbn [String.eqb Ascii.eqb Bool.eqb].
  unfold site_accepted, site_stored, py_in. cbn [existsb].
  destruct (bool_decide (PStr "private" = value)); [reflexivity|].
  destruct (bool_decide (PStr "team" = value)); [reflexivity|].
  destruct (bool_decide (PStr "sitl" = value)); [reflexivity|].
  cbn [orb]. rewrite orb_false_r.
  destruct (bool_decide_reflect (PStr "public" = value)) as [<-|Hne].
  - reflexivity.
  - rewrite bool_decide_eq_false_2 by congruence. reflexivity.
Qed.

Lemma setattr_level (self : obj) (value : pyval) :
  __setattr__ "level" value self
  = Ok (<["level" := value]> (<["site" := site_of_level value]> self)).
Proof.
  unfold __setattr__. unfold setattr_body at 1. cbn [String.eqb Ascii.eqb Bool.eqb].
  unfold site_of_level, public_level.
  destruct (py_in value [PNone; PStr "l2"; PStr "l3"]); reflexivity.
Qed.

Lemma setattr_data_type (self : obj) (value : pyval) :
  __setattr__ "data_type" value self
  = if data_type_accepted value then Ok (<["data_type" := value]> self)
    else Raise ValueError.
Proof.
  unfold __setattr__. unfold setattr_body at 1. cbn [String.eqb Ascii.eqb Bool.eqb].
  unfold data_type_accepted. destruct (py_in value _); reflexivity.
Qed.

Lemma setattr_end_date (self : obj) (value : pyval) :
  __setattr__ "end_date" value self = Ok (<["end_date" := convert_date value]> self).
Proof. reflexivity. Qed.

Lemma setattr_start_date (self : obj) (value : pyval) :
  __setattr__ "start_date" value self = Ok (<["start_date" := convert_date value]> self).
Proof. reflexivity. Qed.

Lemma setattr_files_any (self : obj) (value : pyval) :
  __setattr__ "files" value self = Ok (files_assigned value self).
Proof.
  unfold files_assigned. destruct (bool_decide_reflect (value = PNone)) as [->|Hne].
  - apply setattr_files_none.
  - now apply setattr_files.
Qed.

(** Every assignment, by attribute. *)
Lemma setattr_cases name value (self self' : obj) :
  __setattr__ name value self = Ok self' ->
  (name = "anc_product"
   /\ self' = <["anc_product" := value]> (<["data_type" := PStr "ancillary"]> self))
  \/ (name = "data_type" /\ data_type_accepted value = true
      /\ self' = <["data_type" := value]> self)
  \/ (name = "files" /\ self' = files_assigned value self)
  \/ (name = "level"
      /\ self' = <["level" := value]> (<["site" := site_of_level value]> self))
  \/ (name = "site" /\ site_accepted value = true
      /\ self' = <["site" := site_stored value]> self)
  \/ (name <> "site" /\ name <> "data_type" /\ exists v, self' = <[name := v]> self).
Proof.
  intros H.
  destruct (String.eqb_spec name "anc_product") as [->|H1].
  { left. rewrite setattr_anc_product in H. injection H as <-. auto. }
  destruct (String.eqb_spec name "data_type") as [->|H2].
  { right; left. rewrite setattr_data_type in H.
    destruct (data_type_accepted value); [|discriminate]. injection H as <-. auto. }
  destruct (String.eqb_spec name "files") as [->|H4].
  { right; right; left. rewrite setattr_files_any in H. injection H as <-. auto. }
  destruct (String.eqb_spec name "level") as [->|H5].
  { right; right; right; left. rewrite setattr_level in H. injection H as <-. auto. }
  destruct (String.eqb_spec name "site") as [->|H6].
  { right; right; right; right; left. rewrite setattr_site in H.
    destruct (site_accepted value); [|discriminate]. injection H as <-. auto. }
  right; right; right; right; right. split; [exact H6|]. split; [exact H2|].
  destruct (String.eqb_spec name "end_date") as [->|H3].
  { rewrite setattr_end_date in H. injection H as <-. eauto. }
  destruct (String.eqb_spec name "start_date") as [->|H7].
  { rewrite setattr_start_date in H. injection H as <-. eauto. }
  rewrite setattr_plain in H.
  - injection H as <-. eauto.
  - unfold is_plain, derived_names. cbn [existsb].
    rewrite !(proj2 (String.eqb_neq _ _)) by assumption. reflexivity.
Qed.

Lemma site_stored_cases (value : pyval) :
  site_stored value = PStr "sitl" \/ site_stored value = PStr "public".
Proof. unfold site_stored. destruct (py_in value _); auto. Qed.

Lemma site_of_level_cases (value : pyval) :
  site_of_level value = PStr "sitl" \/ site_of_level value = PStr "public".
Proof. unfold site_of_level. destruct (public_level value); auto. Qed.

End Assignments.

(** X15. Assigning [level] never raises and derives [site] from the value:
    'public' for [None], 'l2' and 'l3', and 'sitl' (the name the data
    centre's URL uses for the team site) for every other value; what
    [site] held before is overwritten. *)
Theorem level_assignment_sets_site (self : gmap string pyval) (value : pyval) :
  exists self',
    MMSDownloader.__setattr__ "level" value self = Ok self'
    /\ self' !! "level" = Some value
    /\ self' !! "site"
       = Some (if bool_decide (value = PNone \/ value = PStr "l2" \/ value = PStr "l3")
               then PStr "public" else PStr "sitl").
Proof.
  eexists. split; [apply setattr_level|]. split; [by simplify_map_eq|].
  rewrite lookup_insert_ne by discriminate. rewrite lookup_insert_eq. f_equal.
  unfold site_of_level, public_level, py_in. cbn [existsb].
  destruct (bool_decide_reflect (PNone = value)) as [<-|H1]; [reflexivity|].
  destruct (bool_decide_reflect (PStr "l2" = value)) as [<-|H2]; [reflexivity|].
  destruct (bool_decide_reflect (PStr "l3" = value)) as [<-|H3]; [reflexivity|].
  cbn [orb]. rewrite bool_decide_eq_false_2; [reflexivity|].
  intros [?|[?|?]]; congruence.
Qed.

(** X16. Every assignment that does not raise keeps the instance well
    formed: [site], when set, is 'sitl' or 'public', and [data_type], when
    set, is 'ancillary', 'hk' or 'science'. *)
Theorem setattr_keeps_well_formed (name : string) (value : pyval)
    (self self' : gmap string pyval) :
  MMSDownloader.__setattr__ name value self = Ok self' ->
  well_formed self -> well_formed self'.
Proof.
  intros H [Hsite Hdt].
  destruct (setattr_cases _ _ _ _ H)
    as [[-> ->] | [(-> & Hv & ->) | [[-> ->] | [[-> ->] | [(-> & Hv & ->) | (Hn1 & Hn2 & v' & ->)]]]]];
    split; intros v Hlook.
  - apply Hsite. by simplify_map_eq.
  - rewrite lookup_insert_ne in Hlook by discriminate.
    rewrite lookup_insert_eq in Hlook. now injection Hlook as <-.
  - apply Hsite. by simplify_map_eq.
  - rewrite lookup_insert_eq in Hlook. now injection Hlook as <-.
  - unfold files_assigned in Hlook. destruct (bool_decide (value = PNone)).
    + apply Hsite. by simplify_map_eq.
    + right. by simplify_map_eq.
  - unfold files_assigned in Hlook. destruct (bool_decide (value = PNone));
      apply Hdt; by simplify_map_eq.
  - rewrite lookup_insert_ne in Hlook by discriminate.
    rewrite lookup_insert_eq in Hlook. injection Hlook as <-.
    apply site_of_level_cases.
  - apply Hdt. by simplify_map_eq.
  - rewrite lookup_insert_eq in Hlook. injection Hlook as <-. apply site_stored_cases.
  - apply Hdt. by simplify_map_eq.
  - apply Hsite. now rewrite lookup_insert_ne in Hlook by congruence.
  - apply Hdt. now rewrite lookup_insert_ne in Hlook by congruence.
Qed.

Lemma setattr_keeps_well_formed_witness :
  well_formed
    (<["files" := PList ["x.cdf"]]> (<["version" := PNone]> (<["optdesc" := PNone]>
     (<["level" := PNone]> (<["site" := PStr "public"]> (<["mode" := PNone]>
     (<["instr" := PNone]> (<["sc" := PNone]> (<["site" := PStr "sitl"]> ∅))))))))).
Proof.
  refine (setattr_keeps_well_formed "files" (PList ["x.cdf"])
            (<["site" := PStr "sitl"]> ∅) _ _ _).
  - apply setattr_files. discriminate.
  - split; intros v Hv.
    + rewrite lookup_insert_eq in Hv. injection Hv as <-. now left.
    + rewrite lookup_insert_ne in Hv by discriminate. rewrite lookup_empty in Hv.
      discriminate.
Defined.

(** ** The constructor *)

Section Constructor.

Import MMSDownloader.

Lemma rbind_raise {A B} (e : exn) (k : A -> result B) : rbind (Raise e) k = Raise e.
Proof. reflexivity. Qed.

Local Tactic Notation "step" uconstr(lem) := rewrite (rbind_step _ _ _ lem).
Local Tactic Notation "step_plain" constr(name) :=
  rewrite (rbind_step _ _ _ (setattr_plain name _ _ eq_refl)).

(** The constructor raises [ValueError] for a [site] or a [data_type] that
    is not accepted, and builds [init_state] otherwise. *)
Lemma init_spec (download_dir : string) (a : init_args) :
  __init__ download_dir a
  = if site_accepted (site a) && data_type_accepted (data_type a)
    then Ok (init_state download_dir a) else Raise ValueError.
Proof.
  unfold __init__, init_state. cbv zeta.
  generalize (∅ : gmap string pyval). intros s0.
  rewrite setattr_site. destruct (site_accepted (site a)); [|apply rbind_raise].
  rewrite (rbind_step _ _ _ eq_refl). cbn [andb].
  step (setattr_anc_product _ _).
  rewrite setattr_data_type.
  destruct (data_type_accepted (data_type a)); [|apply rbind_raise].
  rewrite (rbind_step _ _ _ eq_refl).
  step_plain "dropbox_root". step (setattr_end_date _ _). step_plain "instr".
  step (setattr_level _ _). step_plain "mirror_root". step_plain "mode".
  step_plain "offline". step_plain "optdesc". step_plain "sc".
  step (setattr_start_date _ _). step_plain "version". step (setattr_files_any _ _).
  step_plain "data_root". step_plain "_sdc_home". step_plain "_info_type".
  apply (setattr_plain "_session" _ _ eq_refl).
Qed.

Lemma init_state_site (download_dir : string) (a : init_args) :
  init_state download_dir a !! "site"
  = Some (if bool_decide (files a = PNone) then site_of_level (level a)
          else PStr "public").
Proof.
  unfold init_state, files_assigned. cbv zeta.
  destruct (bool_decide (files a = PNone)); by simplify_map_eq.
Qed.

Lemma init_state_selection (download_dir : string) (a : init_args) (name : string) :
  name ∈ ["sc"; "instr"; "mode"; "level"; "optdesc"; "version"] ->
  files a <> PNone ->
  init_state download_dir a !! name = Some PNone.
Proof.
  intros Hname Hfiles. unfold init_state, files_assigned. cbv zeta.
  rewrite (bool_decide_eq_false_2 (files a = PNone)) by exact Hfiles.
  repeat (apply elem_of_cons in Hname as [->|Hname]; [by simplify_map_eq|]).
  inversion Hname.
Qed.

End Constructor.

(** X17. The constructor raises exactly for a [site] other than 'private',
    'team', 'sitl' and 'public' or a [data_type] other than 'ancillary',
    'hk' and 'science', and then it raises [ValueError]; for all other
    arguments it returns an instance. *)
Theorem init_raises_iff (download_dir : string) (a : MMSDownloader.init_args) :
  (MMSDownloader.__init__ download_dir a = Raise ValueError
   <-> site_accepted (MMSDownloader.site a) = false
       \/ data_type_accepted (MMSDownloader.data_type a) = false)
  /\ (forall e, MMSDownloader.__init__ download_dir a = Raise e -> e = ValueError)
  /\ ((exists self, MMSDownloader.__init__ download_dir a = Ok self)
      <-> site_accepted (MMSDownloader.site a) = true
          /\ data_type_accepted (MMSDownloader.data_type a) = true).
Proof.
  rewrite init_spec.
  destruct (site_accepted (MMSDownloader.site a)),
    (data_type_accepted (MMSDownloader.data_type a)); cbn [andb];
    (split; [split; [intros H; try discriminate; auto | intros [H|H]; try discriminate; auto]
            |split; [intros e [= <-]; reflexivity || (intros e H; discriminate)
                    |split; [intros [self H]; try discriminate; auto
                            |intros [H1 H2]; try discriminate; eauto]]]).
Qed.

(** X18. The [site] argument of the constructor does not reach the
    instance: when the constructor returns, [site] is 'public' if a file
    list was given, and otherwise what the level derives ('public' for
    [None], 'l2', 'l3', else 'sitl'); and [data_type] is the argument. *)
Theorem init_site_from_level (download_dir : string) (a : MMSDownloader.init_args)
    (self : gmap string pyval) :
  MMSDownloader.__init__ download_dir a = Ok self ->
  self !! "site"
  = Some (if bool_decide (MMSDownloader.files a = PNone)
          then site_of_level (MMSDownloader.level a) else PStr "public")
  /\ self !! "data_type" = Some (MMSDownloader.data_type a).
Proof.
  rewrite init_spec. destruct (_ && _); [|discriminate]. intros [= <-].
  split; [apply init_state_site|].
  unfold init_state, files_assigned. cbv zeta.
  destruct (bool_decide (MMSDownloader.files a = PNone)); by simplify_map_eq.
Qed.

Lemma init_site_from_level_witness :
  MMSDownloader.site args_with_files = PStr "private"
  /\ exists self,
    MMSDownloader.__init__ "/home" args_with_files = Ok self
    /\ self !! "site" = Some (PStr "public")
    /\ self !! "data_type" = Some (PStr "science").
Proof.
  split; [reflexivity|].
  exists (init_state "/home" args_with_files).
  split; [rewrite init_spec; reflexivity|].
  refine (init_site_from_level "/home" args_with_files _ _).
  rewrite init_spec. reflexivity.
Defined.

(** X19. A file list given to the constructor wins over the other
    selection arguments: when [files] is not [None] and the constructor
    returns, [sc], [instr], [mode], [level], [optdesc] and [version] are
    [None] whatever was passed for them, and [files] is the list. *)
Theorem init_files_clears_selection (download_dir : string)
    (a : MMSDownloader.init_args) (self : gmap string pyval) :
  MMSDownloader.__init__ download_dir a = Ok self ->
  MMSDownloader.files a <> PNone ->
  Forall (fun name => self !! name = Some PNone)
    ["sc"; "instr"; "mode"; "level"; "optdesc"; "version"]
  /\ self !! "files" = Some (MMSDownloader.files a).
Proof.
  rewrite init_spec. destruct (_ && _); [|discriminate]. intros [= <-] Hfiles.
  split.
  - apply Forall_forall. intros name Hname. now apply init_state_selection.
  - unfold init_state, files_assigned. cbv zeta.
    rewrite (bool_decide_eq_false_2 (MMSDownloader.files a = PNone)) by exact Hfiles.
    by simplify_map_eq.
Qed.

Lemma init_files_clears_selection_witness :
  Forall (fun name => init_state "/home" args_with_files !! name = Some PNone)
    ["sc"; "instr"; "mode"; "level"; "optdesc"; "version"]
  /\ init_state "/home" args_with_files !! "files"
     = Some (MMSDownloader.files args_with_files).
Proof.
  refine (init_files_clears_selection "/home" args_with_files
            (init_state "/home" args_with_files) _ _).
  - rewrite init_spec. reflexivity.
  - discriminate.
Defined.

(** ** Saving and restoring the selection in [downloads] *)

Section DownloadsState.

Import MMSDownloader.

Lemma getattr_Ok (self : obj) (name : string) (v : pyval) :
  Downloads.getattr self name = Ok v <-> self !! name = Some v.
Proof.
  unfold Downloads.getattr. destruct (self !! name); split; congruence.
Qed.

Lemma save_spec (self : obj) (site : pyval) (state : list (string * pyval)) :
  Downloads.save self = Ok (site, state) ->
  exists sc instr mode level optdesc version files,
    self !! "sc" = Some sc /\ self !! "instr" = Some instr
    /\ self !! "mode" = Some mode /\ self !! "level" = Some level
    /\ self !! "optdesc" = Some optdesc /\ self !! "version" = Some version
    /\ self !! "files" = Some files
    /\ state = [("sc", sc); ("instr", instr); ("mode", mode); ("level", level);
                ("optdesc", optdesc); ("version", version); ("files", files)].
Proof.
  unfold Downloads.save.
  repeat match goal with
  | |- context [Downloads.getattr self ?n] =>
      let H := fresh "H" in
      destruct (Downloads.getattr self n) eqn:H; [apply getattr_Ok in H|discriminate];
      cbn [rbind]
  end.
  intros [= <- <-]. do 7 eexists. repeat (split; [eassumption|]). reflexivity.
Qed.

(** The restoring loop on a saved state. *)
Lemma restore_spec (self : obj) (sc instr mode level optdesc version files : pyval) :
  Downloads.restore
    [("sc", sc); ("instr", instr); ("mode", mode); ("level", level);
     ("optdesc", optdesc); ("version", version); ("files", files)] self
  = Ok (files_assigned files (<["files" := PNone]>
       (<["version" := version]> (<["files" := PNone]>
       (<["optdesc" := optdesc]> (<["files" := PNone]>
       (<["level" := level]> (<["site" := site_of_level level]> (<["files" := PNone]>
       (<["mode" := mode]> (<["files" := PNone]>
       (<["instr" := instr]> (<["files" := PNone]>
       (<["sc" := sc]> (<["files" := PNone]> self))))))))))))))).
Proof.
  unfold Downloads.restore. cbn [foldl_result fst snd].
  rewrite setattr_files_none; cbn [rbind].
  rewrite (setattr_plain "sc" _ _ eq_refl); cbn [rbind].
  rewrite setattr_files_none; cbn [rbind].
  rewrite (setattr_plain "instr" _ _ eq_refl); cbn [rbind].
  rewrite setattr_files_none; cbn [rbind].
  rewrite (setattr_plain "mode" _ _ eq_refl); cbn [rbind].
  rewrite setattr_files_none; cbn [rbind].
  rewrite setattr_level; cbn [rbind].
  rewrite setattr_files_none; cbn [rbind].
  rewrite (setattr_plain "optdesc" _ _ eq_refl); cbn [rbind].
  rewrite setattr_files_none; cbn [rbind].
  rewrite (setattr_plain "version" _ _ eq_refl); cbn [rbind].
  rewrite setattr_files_none; cbn [rbind].
  rewrite setattr_files_any. reflexivity.
Qed.

End DownloadsState.

Section DownloadsRestore.

Import MMSDownloader.

(** X20. What [downloads] leaves behind.  Whatever happened to the
    instance between saving the selection and restoring it, the restoring
    loop never raises and puts the saved [files] back.  When no file list
    was saved, [sc], [instr], [mode], [level], [optdesc] and [version] are
    the saved ones again; when a file list was saved, assigning it last
    clears those six.  The saved [site] is not put back by the loop: the
    site is the one derived from the saved level, or 'public' beside a
    file list. *)
Theorem downloads_restore (before : obj) (site : pyval)
    (state : list (string * pyval)) (self : obj) :
  Downloads.save before = Ok (site, state) ->
  exists self',
    Downloads.restore state self = Ok self'
    /\ self' !! "files" = before !! "files"
    /\ (before !! "files" = Some PNone ->
        Forall (fun name => self' !! name = before !! name)
          ["sc"; "instr"; "mode"; "level"; "optdesc"; "version"]
        /\ exists level, before !! "level" = Some level
                         /\ self' !! "site" = Some (site_of_level level))
    /\ (before !! "files" <> Some PNone ->
        Forall (fun name => self' !! name = Some PNone)
          ["sc"; "instr"; "mode"; "level"; "optdesc"; "version"]
        /\ self' !! "site" = Some (PStr "public")).
Proof.
  intros Hsave.
  destruct (save_spec _ _ _ Hsave)
    as (sc & instr & mode & level & optdesc & version & files
        & Hsc & Hinstr & Hmode & Hlevel & Hoptdesc & Hversion & Hfiles & ->).
  eexists. split; [apply restore_spec|].
  unfold files_assigned.
  destruct (bool_decide_reflect (files = PNone)) as [->|Hne].
  - split; [rewrite Hfiles; by simplify_map_eq|]. split.
    + intros _. split.
      * repeat (constructor;
          [cbn beta; rewrite ?Hsc, ?Hinstr, ?Hmode, ?Hlevel, ?Hoptdesc, ?Hversion;
           by simplify_map_eq|]).
        constructor.
      * exists level. split; [exact Hlevel|]. by simplify_map_eq.
    + intros H. now destruct H.
  - split; [rewrite Hfiles; by simplify_map_eq|]. split.
    + intros H. rewrite Hfiles in H. injection H as ->. now destruct Hne.
    + intros _. split.
      * repeat (constructor; [by simplify_map_eq|]). constructor.
      * by simplify_map_eq.
Qed.

End DownloadsRestore.

Lemma downloads_restore_witness :
  exists self',
    Downloads.restore
      [("sc", PStr "mms1"); ("instr", PStr "fpi"); ("mode", PStr "brst");
       ("level", PStr "l2"); ("optdesc", PStr "dis-moms"); ("version", PNone);
       ("files", PNone)] (∅ : gmap string pyval) = Ok self'
    /\ self' !! "files" = selected_instance !! "files"
    /\ (selected_instance !! "files" = Some PNone ->
        Forall (fun name => self' !! name = selected_instance !! name)
          ["sc"; "instr"; "mode"; "level"; "optdesc"; "version"]
        /\ exists level, selected_instance !! "level" = Some level
                         /\ self' !! "site" = Some (site_of_level level))
    /\ (selected_instance !! "files" <> Some PNone ->
        Forall (fun name => self' !! name = Some PNone)
          ["sc"; "instr"; "mode"; "level"; "optdesc"; "version"]
        /\ self' !! "site" = Some (PStr "public")).
Proof.
  refine (downloads_restore selected_instance (PStr "sitl") _ ∅ _).
  vm_compute. reflexivity.
Defined.

(** X21. Selecting the remote files in [downloads].  On an instance whose
    [site] is one of the two stored values, saving the selection and then
    assigning the base names of the remote files and the saved site never
    raises: [files] holds the base names, [sc], [instr], [mode], [level],
    [optdesc] and [version] are [None], and [site] is the saved one, not
    the 'public' the file list forced. *)
Theorem downloads_select_keeps_site (self : gmap string pyval) (site : pyval)
    (state : list (string * pyval)) (remote_files : list string) :
  Downloads.save self = Ok (site, state) ->
  site = PStr "sitl" \/ site = PStr "public" ->
  exists self',
    Downloads.select self remote_files site = Ok self'
    /\ self' !! "files"
       = Some (PList (Py.basename <$> remote_files))
    /\ Forall (fun name => self' !! name = Some PNone)
         ["sc"; "instr"; "mode"; "level"; "optdesc"; "version"]
    /\ self' !! "site" = self !! "site".
Proof.
  intros Hsave Hsite.
  assert (Hlook : self !! "site" = Some site).
  { unfold Downloads.save in Hsave.
    destruct (Downloads.getattr self "site") as [v|] eqn:H; [|discriminate].
    apply getattr_Ok in H. cbn [rbind] in Hsave.
    repeat match type of Hsave with
    | context [Downloads.getattr self ?n] =>
        destruct (Downloads.getattr self n); [cbn [rbind] in Hsave|discriminate]
    end.
    injection Hsave as -> _. exact H. }
  unfold Downloads.select.
  rewrite setattr_files by discriminate. cbn [rbind].
  rewrite setattr_site.
  assert (Hacc : site_accepted site = true /\ site_stored site = site)
    by (destruct Hsite as [-> | ->]; split; reflexivity).
  destruct Hacc as [-> Hst]. rewrite Hst, Hlook.
  eexists. split; [reflexivity|].
  split; [by simplify_map_eq|].
  split; [|by simplify_map_eq].
  repeat (constructor; [by simplify_map_eq|]). constructor.
Qed.

Lemma downloads_select_keeps_site_witness :
  exists self',
    Downloads.select selected_instance
      ["mms/data/mms1/fpi/brst/l2/dis-moms/2019/01/01/mms1_fpi_brst_l2_dis-moms_20190101120000_v1.0.0.cdf"]
      (PStr "sitl") = Ok self'
    /\ self' !! "files"
       = Some (PList (Py.basename <$>
           ["mms/data/mms1/fpi/brst/l2/dis-moms/2019/01/01/mms1_fpi_brst_l2_dis-moms_20190101120000_v1.0.0.cdf"]))
    /\ Forall (fun name => self' !! name = Some PNone)
         ["sc"; "instr"; "mode"; "level"; "optdesc"; "version"]
    /\ self' !! "site" = selected_instance !! "site".
Proof.
  refine (downloads_select_keeps_site selected_instance (PStr "sitl") _ _ _ _).
  - vm_compute. reflexivity.
  - left. reflexivity.
Defined.
